(** * The [aws_lb] data source: [aws/data_source_aws_lb.go]

    A shallow embedding of [dataSourceAwsLb] (the schema) and of
    [dataSourceAwsLbRead] (the read operation), followed by the
    properties of the read operation.

    Conventions of the embedding:
    - a Go [*string] is an [option string]; [aws.StringValue] reads it;
    - a Go [error] is an [option error] ([None] is [nil]);
    - the ELBv2 connection is a value of a type [Conn] threaded through
      the calls, so that the service may answer differently each time
      it is asked;
    - [*schema.ResourceData] is mutated in place by the Go code; here
      every operation returns the new [ResourceData], also when it
      fails, so that what a failed read leaves behind is visible. *)

From Stdlib Require Import ZArith Ascii String DecimalString DecimalNat.
From stdpp Require Import gmap strings list fin_maps.


(** ** Go values *)

(** [aws.StringValue]: the string behind the pointer, or [""] for nil. *)
Definition StringValue (p : option string) : string :=
  match p with
  | Some s => s
  | None => ""
  end.

(** [aws.String]. *)
Definition String_ptr (s : string) : option string := Some s.

(** The verb [%d] of [fmt] at a length. *)
Definition fmt_d (n : nat) : string :=
  NilEmpty.string_of_uint (Nat.to_uint n).

(** ** Errors *)

Inductive NumErrKind := ErrSyntax | ErrRange.

Inductive SetFailure := InvalidAddress | WrongType.

(** The errors the read operation meets or builds.
    [wrapError prefix err] is [fmt.Errorf(prefix + "%w", err)], the text
    before the verb already formatted; [errorString] is [fmt.Errorf]
    without [%w]. *)
Inductive error :=
| awsError (code message : string)
| otherError (message : string)
| numError (func num : string) (kind : NumErrKind)
| setError (key : string) (why : SetFailure)
| errorString (s : string)
| wrapError (prefix : string) (err : error).

Definition ErrCodeLoadBalancerNotFoundException : string := "LoadBalancerNotFound".

(** [tfawserr.ErrCodeEquals] on a non-nil error: [errors.As] walks the
    chain of wrapped errors to an [awserr.Error] and compares its code. *)
Fixpoint ErrCodeEquals (err : error) (code : string) : bool :=
  match err with
  | awsError c _ => String.eqb c code
  | wrapError _ e => ErrCodeEquals e code
  | _ => false
  end.

Inductive result (A : Type) :=
| Ok (a : A)
| Err (e : error).
Arguments Ok {A} a.
Arguments Err {A} e.

(** ** [strconv.Atoi] (64-bit [int])

    An optional sign, then decimal digits read from the left: a byte
    that is no digit is a syntax error, a value that leaves the
    unsigned 64-bit range is a range error, whichever comes first; a
    value that ends outside the signed range is a range error too. *)

Definition digitValue (c : ascii) : option Z :=
  let n := nat_of_ascii c in
  if (48 <=? n)%nat && (n <=? 57)%nat then Some (Z.of_nat (n - 48)) else None.

Definition maxUint64 : Z := 2 ^ 64 - 1.
Definition maxInt : Z := 2 ^ 63 - 1.
Definition minInt : Z := - 2 ^ 63.

(** The digit loop of [ParseUint] at base 10. *)
Fixpoint parseDigits (s : string) (n : Z) : NumErrKind + Z :=
  match s with
  | EmptyString => inr n
  | String c r =>
      match digitValue c with
      | None => inl ErrSyntax
      | Some v =>
          if (maxUint64 <? n * 10 + v)%Z then inl ErrRange
          else parseDigits r (n * 10 + v)
      end
  end.

Definition Atoi (s : string) : result Z :=
  match s with
  | EmptyString => Err (numError "Atoi" s ErrSyntax)
  | String c r =>
      let neg := Ascii.eqb c "-"%char in
      let body := if neg || Ascii.eqb c "+"%char then r else s in
      match body with
      | EmptyString => Err (numError "Atoi" s ErrSyntax)
      | _ =>
          match parseDigits body 0 with
          | inl kind => Err (numError "Atoi" s kind)
          | inr un =>
              let v := if neg then (- un)%Z else un in
              if (minInt <=? v)%Z && (v <=? maxInt)%Z then Ok v
              else Err (numError "Atoi" s ErrRange)
          end
      end
  end.

(** ** The values and the schema of the plugin SDK *)

Inductive PrimValue :=
| PNil
| PString (s : string)
| PBool (b : bool)
| PInt (z : Z).

Inductive ElemValue :=
| EPrim (p : PrimValue)
| EObject (fields : gmap string PrimValue).

(** What [d.Set] is given: a primitive (a nil pointer is [PNil]), a
    slice, or a map of strings. *)
Inductive FieldValue :=
| VPrim (p : PrimValue)
| VSlice (l : list ElemValue)
| VMap (m : gmap string string).

Definition VString (s : string) : FieldValue := VPrim (PString s).
Definition VBool (b : bool) : FieldValue := VPrim (PBool b).
Definition VInt (z : Z) : FieldValue := VPrim (PInt z).

(** A [*string] handed to [d.Set]: the SDK dereferences it, a nil
    pointer is the nil value. *)
Definition VStringPtr (p : option string) : FieldValue :=
  match p with
  | Some s => VString s
  | None => VPrim PNil
  end.

Inductive PrimType := TypeString | TypeBool | TypeInt.

Inductive ElemSchema :=
| ElemPrim (t : PrimType)
| ElemResource (fields : gmap string PrimType).

Inductive SchemaType :=
| SPrim (t : PrimType)
| TypeSet (e : ElemSchema)
| TypeList (e : ElemSchema)
| TypeMap (t : PrimType).

(** Modelled from the spec: [tagsSchema], declared elsewhere in the
    repository; the spec lists [tags] as a free-form map of strings. *)
Definition tagsSchema : SchemaType := TypeMap TypeString.

(** The nested resource of [access_logs] (lines 90-105). *)
Definition accessLogsResource : gmap string PrimType :=
  <["bucket" := TypeString]>
  (<["prefix" := TypeString]>
  (<["enabled" := TypeBool]> ∅)).

(** [dataSourceAwsLb]: the [Schema] field, key by key. *)
Definition dataSourceAwsLb : gmap string SchemaType :=
  <["arn" := SPrim TypeString]>
  (<["arn_suffix" := SPrim TypeString]>
  (<["name" := SPrim TypeString]>
  (<["internal" := SPrim TypeBool]>
  (<["load_balancer_type" := SPrim TypeString]>
  (<["security_groups" := TypeSet (ElemPrim TypeString)]>
  (<["subnets" := TypeSet (ElemPrim TypeString)]>
  (<["subnet_mapping" :=
       TypeSet (ElemResource
         (<["subnet_id" := TypeString]>
         (<["outpost_id" := TypeString]>
         (<["allocation_id" := TypeString]>
         (<["private_ipv4_address" := TypeString]>
         (<["ipv6_address" := TypeString]> ∅))))))]>
  (<["access_logs" := TypeList (ElemResource accessLogsResource)]>
  (<["enable_deletion_protection" := SPrim TypeBool]>
  (<["enable_http2" := SPrim TypeBool]>
  (<["idle_timeout" := SPrim TypeInt]>
  (<["drop_invalid_header_fields" := SPrim TypeBool]>
  (<["vpc_id" := SPrim TypeString]>
  (<["zone_id" := SPrim TypeString]>
  (<["dns_name" := SPrim TypeString]>
  (<["ip_address_type" := SPrim TypeString]>
  (<["customer_owned_ipv4_pool" := SPrim TypeString]>
  (<["tags" := tagsSchema]> ∅)))))))))))))))))).

(** Whether the SDK's field writer accepts a value at a schema type.
    A nil value is accepted everywhere (it clears the field); an object
    is checked field by field against the nested resource, a field the
    object lacks being left unset. *)
Definition primConforms (t : PrimType) (p : PrimValue) : bool :=
  match p, t with
  | PNil, _ => true
  | PString _, TypeString => true
  | PBool _, TypeBool => true
  | PInt _, TypeInt => true
  | _, _ => false
  end.

Definition fieldConforms (o : gmap string PrimValue) (k : string)
    (t : PrimType) : bool :=
  match o !! k with
  | Some p => primConforms t p
  | None => true
  end.

Definition objectConforms (fields : gmap string PrimType)
    (o : gmap string PrimValue) : bool :=
  bool_decide (map_Forall (λ k t, fieldConforms o k t = true) fields).

Definition elemConforms (e : ElemSchema) (v : ElemValue) : bool :=
  match e, v with
  | ElemPrim t, EPrim p => primConforms t p
  | ElemResource fields, EObject o => objectConforms fields o
  | _, _ => false
  end.

Definition conforms (ty : SchemaType) (v : FieldValue) : bool :=
  match ty, v with
  | _, VPrim PNil => true
  | SPrim t, VPrim p => primConforms t p
  | TypeSet e, VSlice l => forallb (elemConforms e) l
  | TypeList e, VSlice l => forallb (elemConforms e) l
  | TypeMap TypeString, VMap _ => true
  | _, _ => false
  end.

(** ** [schema.ResourceData] *)

(** The configuration the user wrote, the fields written by [d.Set] so
    far, and the identifier. *)
Record ResourceData := mkResourceData {
  rd_config : gmap string FieldValue;
  rd_state : gmap string FieldValue;
  rd_id : string
}.

(** [d.SetId]. *)
Definition SetId (d : ResourceData) (v : string) : ResourceData :=
  mkResourceData (rd_config d) (rd_state d) v.

(** [d.Id]. *)
Definition Id (d : ResourceData) : string := rd_id d.

(** [d.Set]: a key the schema does not have, or a value of the wrong
    shape, is refused with an error and nothing is written. *)
Definition Set_ (d : ResourceData) (key : string) (value : FieldValue)
    : ResourceData * option error :=
  match dataSourceAwsLb !! key with
  | None => (d, Some (setError key InvalidAddress))
  | Some ty =>
      if conforms ty value
      then (mkResourceData (rd_config d) (<[key := value]> (rd_state d)) (rd_id d), None)
      else (d, Some (setError key WrongType))
  end.

(** A call of [d.Set] whose error the code drops. *)
Definition Set_ignored (d : ResourceData) (key : string) (value : FieldValue)
    : ResourceData :=
  fst (Set_ d key value).

(** What a read of [key] sees: a written field, else the configuration. *)
Definition rd_get (d : ResourceData) (key : string) : option FieldValue :=
  match rd_state d !! key with
  | Some v => Some v
  | None => rd_config d !! key
  end.

(** [d.GetOk] at a string field: the value, and whether it is set to
    something other than the zero value. *)
Definition GetOk_string (d : ResourceData) (key : string) : string * bool :=
  match rd_get d key with
  | Some (VPrim (PString s)) => (s, negb (String.eqb s ""))
  | _ => ("", false)
  end.

(** [d.Get("tags").(map[string]interface{})] *)
Definition Get_map (d : ResourceData) (key : string) : gmap string string :=
  match rd_get d key with
  | Some (VMap m) => m
  | _ => ∅
  end.

(** ** The ELBv2 service *)

Record LoadBalancerAddress := mkLoadBalancerAddress {
  AllocationId : option string;
  IPv6Address : option string;
  IpAddress : option string;
  PrivateIPv4Address : option string
}.

Record AvailabilityZone := mkAvailabilityZone {
  LoadBalancerAddresses : list LoadBalancerAddress;
  OutpostId : option string;
  SubnetId : option string;
  ZoneName : option string
}.

(** [elbv2.LoadBalancer], the fields the read operation uses. *)
Record LoadBalancer := mkLoadBalancer {
  LoadBalancerArn : option string;
  LoadBalancerName : option string;
  Scheme : option string;
  SecurityGroups : list (option string);
  VpcId : option string;
  CanonicalHostedZoneId : option string;
  DNSName : option string;
  IpAddressType : option string;
  Type_ : option string;
  CustomerOwnedIpv4Pool : option string;
  AvailabilityZones : list AvailabilityZone
}.

(** [elbv2.DescribeLoadBalancersInput]; a nil slice is the empty list. *)
Record DescribeLoadBalancersInput := mkDescribeLoadBalancersInput {
  LoadBalancerArns : list (option string);
  Names : list (option string)
}.

Record DescribeLoadBalancersOutput := mkDescribeLoadBalancersOutput {
  LoadBalancers : list LoadBalancer
}.

Record Attribute := mkAttribute {
  Key : option string;
  Value : option string
}.

Record DescribeLoadBalancerAttributesOutput := mkDescribeLoadBalancerAttributesOutput {
  Attributes : list Attribute
}.

(** One turn of the SDK's paginator: a request that failed, or a page
    (possibly nil) together with the [lastPage] flag handed to the
    callback. *)
Inductive PageEvent :=
| page_ok (page : option DescribeLoadBalancersOutput) (lastPage : bool)
| page_err (e : error).

(** The loop of the generated [DescribeLoadBalancersPages]:
    [for p.Next() { if !fn(p.Page(), !p.HasNextPage()) { break } }; return p.Err()].
    The callback's captured variables are the state [s]; the events the
    loop did not reach are returned along with the error. *)
Fixpoint EachPage {S : Type}
    (fn : option DescribeLoadBalancersOutput → bool → S → S * bool)
    (events : list PageEvent) (s : S)
    : S * option error * list PageEvent :=
  match events with
  | [] => (s, None, [])
  | page_err e :: rest => (s, Some e, rest)
  | page_ok page lastPage :: rest =>
      let '(s', continue) := fn page lastPage s in
      if continue then EachPage fn rest s' else (s', None, rest)
  end.

(** Tag sets ([keyvaluetags.KeyValueTags]): string keys, string values. *)
Abbreviation KeyValueTags := (gmap string string).

(** The service as the read operation sees it. Each call returns the
    connection to go on with. [loadBalancerPages] is the sequence of
    paginator turns a list request is answered with.
    [Elbv2ListTags] lives in [keyvaluetags], [DescribeLoadBalancerAttributes]
    in the SDK; both are black boxes here. *)
Class ELBV2API (Conn : Type) := {
  loadBalancerPages : Conn → DescribeLoadBalancersInput → list PageEvent * Conn;
  Elbv2ListTags : Conn → string → result KeyValueTags * Conn;
  DescribeLoadBalancerAttributes :
    Conn → option string → result DescribeLoadBalancerAttributesOutput * Conn
}.

(** [conn.DescribeLoadBalancersPages(input, fn)]. *)
Definition DescribeLoadBalancersPages {Conn} `{ELBV2API Conn} {S : Type}
    (conn : Conn) (input : DescribeLoadBalancersInput)
    (fn : option DescribeLoadBalancersOutput → bool → S → S * bool) (s : S)
    : S * option error * Conn :=
  let '(events, conn') := loadBalancerPages conn input in
  let '(s', err, _) := EachPage fn events s in
  (s', err, conn').

(** Functions of the repository that the read operation calls and that
    no property below depends on: the tag-ignore policy and the
    flatteners. *)
Class Helpers := {
  IgnoreConfigT : Type;
  IgnoreAws : KeyValueTags → KeyValueTags;
  IgnoreConfig : IgnoreConfigT → KeyValueTags → KeyValueTags;
  lbSuffixFromARN : option string → string;
  flattenStringList : list (option string) → FieldValue;
  flattenSubnetsFromAvailabilityZones : list AvailabilityZone → FieldValue;
  flattenSubnetMappingsFromAvailabilityZones : list AvailabilityZone → FieldValue
}.

(** Modelled from the spec: [keyvaluetags.New] and [KeyValueTags.Map],
    which are not in the source file. The spec's tag set is a mapping
    of string key to string value, so both conversions keep the map. *)
Definition New (m : gmap string string) : KeyValueTags := m.
Definition Map (tags : KeyValueTags) : gmap string string := tags.

(** Modelled from the spec: [KeyValueTags.ContainsAll], which is not in
    the source file. "An entity matches only if every key in the
    predicate is present with an exactly equal value." *)
Definition ContainsAll (tags target : KeyValueTags) : bool :=
  bool_decide (map_Forall (λ k v, tags !! k = Some v) target).

Record AWSClient (Conn : Type) `{Helpers} := mkAWSClient {
  elbv2conn : Conn;
  IgnoreTagsConfig : IgnoreConfigT
}.
Arguments mkAWSClient {Conn _} _ _.
Arguments elbv2conn {Conn _} _.
Arguments IgnoreTagsConfig {Conn _} _.

(** ** [dataSourceAwsLbRead] *)

Section Read.
Context {Conn : Type} `{ELBV2API Conn} `{Helpers}.

(** Line 162: the tag predicate, after the ignore policy. *)
Definition tagsToMatch_of (d : ResourceData) (meta : AWSClient Conn) : KeyValueTags :=
  IgnoreConfig (IgnoreTagsConfig meta) (IgnoreAws (New (Get_map d "tags"))).

(** Lines 164-170: the list request. *)
Definition buildInput (d : ResourceData) : DescribeLoadBalancersInput :=
  let '(v, ok) := GetOk_string d "arn" in
  if ok then mkDescribeLoadBalancersInput [Some v] []
  else
    let '(v, ok) := GetOk_string d "name" in
    if ok then mkDescribeLoadBalancersInput [] [Some v]
    else mkDescribeLoadBalancersInput [] [].

(** Lines 174-182: the callback given to the paginator; [results] is
    the variable it captures. *)
Definition pageCallback (page : option DescribeLoadBalancersOutput)
    (lastPage : bool) (results : list LoadBalancer) : list LoadBalancer * bool :=
  match page with
  | None => (results, negb lastPage)
  | Some p => (results ++ LoadBalancers p, negb lastPage)
  end.

(** Lines 172-186. *)
Definition listLoadBalancers (conn : Conn) (input : DescribeLoadBalancersInput)
    : result (list LoadBalancer) * Conn :=
  let '(results, err, conn) :=
    DescribeLoadBalancersPages conn input pageCallback [] in
  match err with
  | Some e => (Err (wrapError "error retrieving LB: " e), conn)
  | None => (Ok results, conn)
  end.

(** Lines 191-208: the loop over [results]; [loadBalancers] is the
    slice it appends to. *)
Fixpoint filterByTags (conn : Conn) (tagsToMatch : KeyValueTags)
    (results loadBalancers : list LoadBalancer)
    : result (list LoadBalancer) * Conn :=
  match results with
  | [] => (Ok loadBalancers, conn)
  | loadBalancer :: rest =>
      let arn := StringValue (LoadBalancerArn loadBalancer) in
      let '(r, conn) := Elbv2ListTags conn arn in
      match r with
      | Err err =>
          if ErrCodeEquals err ErrCodeLoadBalancerNotFoundException
          then filterByTags conn tagsToMatch rest loadBalancers
          else (Err (wrapError ("error listing tags for (" +:+ arn +:+ "): ") err), conn)
      | Ok tags =>
          if negb (ContainsAll tags tagsToMatch)
          then filterByTags conn tagsToMatch rest loadBalancers
          else filterByTags conn tagsToMatch rest (loadBalancers ++ [loadBalancer])
      end
  end.

(** Lines 188-211. *)
Definition filterPhase (conn : Conn) (tagsToMatch : KeyValueTags)
    (results : list LoadBalancer) : result (list LoadBalancer) * Conn :=
  if (0 <? size tagsToMatch)%nat
  then filterByTags conn tagsToMatch results []
  else (Ok results, conn).

(** Lines 162-211: the load balancers that survive listing and filtering. *)
Definition candidates (d : ResourceData) (meta : AWSClient Conn)
    : result (list LoadBalancer) * Conn :=
  let tagsToMatch := tagsToMatch_of d meta in
  let input := buildInput d in
  let '(r, conn) := listLoadBalancers (elbv2conn meta) input in
  match r with
  | Err e => (Err e, conn)
  | Ok results => filterPhase conn tagsToMatch results
  end.

(** The error of line 214. *)
Definition searchError (n : nat) : error :=
  errorString ("Search returned " +:+ fmt_d n +:+
               " results, please revise so only one is returned").

(** Lines 219-231: the identifier and the fields copied from the load
    balancer; the errors of these [d.Set] calls are dropped. *)
Definition setCoreFields (d : ResourceData) (lb : LoadBalancer) : ResourceData :=
  let d := SetId d (StringValue (LoadBalancerArn lb)) in
  let d := Set_ignored d "arn" (VStringPtr (LoadBalancerArn lb)) in
  let d := Set_ignored d "arn_suffix" (VString (lbSuffixFromARN (LoadBalancerArn lb))) in
  let d := Set_ignored d "name" (VStringPtr (LoadBalancerName lb)) in
  let d := Set_ignored d "internal"
             (VBool (match Scheme lb with
                     | Some _ => String.eqb (StringValue (Scheme lb)) "internal"
                     | None => false
                     end)) in
  let d := Set_ignored d "security_groups" (flattenStringList (SecurityGroups lb)) in
  let d := Set_ignored d "vpc_id" (VStringPtr (VpcId lb)) in
  let d := Set_ignored d "zone_id" (VStringPtr (CanonicalHostedZoneId lb)) in
  let d := Set_ignored d "dns_name" (VStringPtr (DNSName lb)) in
  let d := Set_ignored d "ip_address_type" (VStringPtr (IpAddressType lb)) in
  let d := Set_ignored d "load_balancer_type" (VStringPtr (Type_ lb)) in
  Set_ignored d "customer_owned_ipv4_pool" (VStringPtr (CustomerOwnedIpv4Pool lb)).

(** Lines 219-239. *)
Definition setFields (d : ResourceData) (lb : LoadBalancer)
    : ResourceData * option error :=
  let d := setCoreFields d lb in
  match Set_ d "subnets" (flattenSubnetsFromAvailabilityZones (AvailabilityZones lb)) with
  | (d, Some err) => (d, Some (wrapError "error setting subnets: " err))
  | (d, None) =>
      match Set_ d "subnet_mapping"
              (flattenSubnetMappingsFromAvailabilityZones (AvailabilityZones lb)) with
      | (d, Some err) => (d, Some (wrapError "error setting subnet_mapping: " err))
      | (d, None) => (d, None)
      end
  end.

(** Lines 241-249: the tags of the resolved load balancer, read again. *)
Definition setTags (d : ResourceData) (ignoreTagsConfig : IgnoreConfigT) (conn : Conn)
    : ResourceData * Conn * option error :=
  let '(r, conn) := Elbv2ListTags conn (Id d) in
  match r with
  | Err err =>
      (d, conn, Some (wrapError ("error listing tags for (" +:+ Id d +:+ "): ") err))
  | Ok tags =>
      match Set_ d "tags" (VMap (Map (IgnoreConfig ignoreTagsConfig (IgnoreAws tags)))) with
      | (d, Some err) => (d, conn, Some (wrapError "error setting tags: " err))
      | (d, None) => (d, conn, None)
      end
  end.

(** Lines 258-262. *)
Definition accessLogMap0 : gmap string PrimValue :=
  <["bucket" := PString ""]>
  (<["enabled" := PBool false]>
  (<["prefix" := PString ""]> ∅)).

(** Lines 264-291: the loop over the attributes. It returns the record
    and the access-log map as they are when it ends or returns early. *)
Fixpoint attributesLoop (attrs : list Attribute) (d : ResourceData)
    (accessLogMap : gmap string PrimValue)
    : ResourceData * gmap string PrimValue * option error :=
  match attrs with
  | [] => (d, accessLogMap, None)
  | attr :: rest =>
      let key := StringValue (Key attr) in
      let value := StringValue (Value attr) in
      if String.eqb key "access_logs.s3.enabled" then
        attributesLoop rest d (<["enabled" := PBool (String.eqb value "true")]> accessLogMap)
      else if String.eqb key "access_logs.s3.bucket" then
        attributesLoop rest d (<["bucket" := PString value]> accessLogMap)
      else if String.eqb key "access_logs.s3.prefix" then
        attributesLoop rest d (<["prefix" := PString value]> accessLogMap)
      else if String.eqb key "idle_timeout.timeout_seconds" then
        match Atoi value with
        | Err err => (d, accessLogMap, Some (wrapError "error parsing ALB timeout: " err))
        | Ok timeout =>
            attributesLoop rest (Set_ignored d "idle_timeout" (VInt timeout)) accessLogMap
        end
      else if String.eqb key "routing.http.drop_invalid_header_fields.enabled" then
        let dropInvalidHeaderFieldsEnabled := String.eqb value "true" in
        attributesLoop rest
          (Set_ignored d "drop_invalid_header_fields" (VBool dropInvalidHeaderFieldsEnabled))
          accessLogMap
      else if String.eqb key "deletion_protection.enabled" then
        let protectionEnabled := String.eqb value "true" in
        attributesLoop rest
          (Set_ignored d "enable_deletion_protection" (VBool protectionEnabled))
          accessLogMap
      else if String.eqb key "routing.http2.enabled" then
        let http2Enabled := String.eqb value "true" in
        attributesLoop rest (Set_ignored d "enable_http2" (VBool http2Enabled)) accessLogMap
      else if String.eqb key "load_balancing.cross_zone.enabled" then
        let crossZoneLbEnabled := String.eqb value "true" in
        attributesLoop rest
          (Set_ignored d "enable_cross_zone_load_balancing" (VBool crossZoneLbEnabled))
          accessLogMap
      else attributesLoop rest d accessLogMap
  end.

(** Lines 258-297: the attributes, once fetched. *)
Definition setAttributes (d : ResourceData) (attrs : list Attribute)
    : ResourceData * option error :=
  match attributesLoop attrs d accessLogMap0 with
  | (d, _, Some err) => (d, Some err)
  | (d, accessLogMap, None) =>
      match Set_ d "access_logs" (VSlice [EObject accessLogMap]) with
      | (d, Some err) => (d, Some (wrapError "error setting access_logs: " err))
      | (d, None) => (d, None)
      end
  end.

(** Lines 251-297. *)
Definition readAttributes (d : ResourceData) (conn : Conn)
    : ResourceData * Conn * option error :=
  let '(r, conn) := DescribeLoadBalancerAttributes conn (String_ptr (Id d)) in
  match r with
  | Err err => (d, conn, Some (wrapError "error retrieving LB Attributes: " err))
  | Ok attributesResp =>
      let '(d, err) := setAttributes d (Attributes attributesResp) in
      (d, conn, err)
  end.

(** Lines 217-297: the projection of the resolved load balancer. *)
Definition project (d : ResourceData) (ignoreTagsConfig : IgnoreConfigT)
    (conn : Conn) (lb : LoadBalancer) : ResourceData * Conn * option error :=
  match setFields d lb with
  | (d, Some err) => (d, conn, Some err)
  | (d, None) =>
      match setTags d ignoreTagsConfig conn with
      | (d, conn, Some err) => (d, conn, Some err)
      | (d, conn, None) => readAttributes d conn
      end
  end.

(** The read operation. It returns the record as the call leaves it,
    the connection, and the error ([None] for nil). After the check of
    line 213 the slice has one element, which [results[0]] reads. *)
Definition dataSourceAwsLbRead (d : ResourceData) (meta : AWSClient Conn)
    : ResourceData * Conn * option error :=
  let ignoreTagsConfig := IgnoreTagsConfig meta in
  let '(r, conn) := candidates d meta in
  match r with
  | Err err => (d, conn, Some err)
  | Ok results =>
      if negb (length results =? 1)%nat
      then (d, conn, Some (searchError (length results)))
      else
        match results !! 0%nat with
        | Some lb => project d ignoreTagsConfig conn lb
        | None => (d, conn, Some (errorString "index out of range"))
        end
  end.

End Read.

(** ** Vocabulary of the properties *)

(** What a paginator turn contributes to [results]. *)
Definition entities (ev : PageEvent) : list LoadBalancer :=
  match ev with
  | page_ok (Some p) _ => LoadBalancers p
  | _ => []
  end.

(** A turn that delivers a page (possibly nil) not flagged as the last. *)
Definition notLast (ev : PageEvent) : Prop :=
  match ev with
  | page_ok _ lastPage => lastPage = false
  | page_err _ => False
  end.

(** The outcome of a phase, its survivors put after [before]. *)
Definition after_ {Conn : Type} (before : list LoadBalancer)
    (r : result (list LoadBalancer) * Conn) : result (list LoadBalancer) * Conn :=
  match r with
  | (Ok survivors, conn) => (Ok (before ++ survivors), conn)
  | (Err e, conn) => (Err e, conn)
  end.

(** The field of the record that the loop over the attributes hands to
    [d.Set] at an attribute key, if any. *)
Definition fieldOf (key : string) : option string :=
  if String.eqb key "idle_timeout.timeout_seconds" then Some "idle_timeout"
  else if String.eqb key "routing.http.drop_invalid_header_fields.enabled"
       then Some "drop_invalid_header_fields"
  else if String.eqb key "deletion_protection.enabled" then Some "enable_deletion_protection"
  else if String.eqb key "routing.http2.enabled" then Some "enable_http2"
  else if String.eqb key "load_balancing.cross_zone.enabled"
       then Some "enable_cross_zone_load_balancing"
  else None.

(** An attribute the loop does not stop at: its key is not the idle
    timeout's, or its value is an integer for [strconv.Atoi]. *)
Definition parses (attr : Attribute) : Prop :=
  StringValue (Key attr) = "idle_timeout.timeout_seconds" →
  ∃ timeout, Atoi (StringValue (Value attr)) = Ok timeout.

(** An attribute whose key is none of the access-log keys. *)
Definition notAccessLog (attr : Attribute) : Prop :=
  StringValue (Key attr) ≠ "access_logs.s3.enabled"
  ∧ StringValue (Key attr) ≠ "access_logs.s3.bucket"
  ∧ StringValue (Key attr) ≠ "access_logs.s3.prefix".

(** The read reaches the loop over the attributes: one load balancer
    is resolved, its fields and its tags are written, which leaves the
    record [d2], and the attribute request is answered with [attrs],
    which leaves the connection [conn3]. *)
Definition reachesAttributes {Conn : Type} `{ELBV2API Conn} `{Helpers}
    (d : ResourceData) (meta : AWSClient Conn)
    (d2 : ResourceData) (conn3 : Conn) (attrs : list Attribute) : Prop :=
  ∃ lb conn d1 conn2,
    candidates d meta = (Ok [lb], conn)
    ∧ setFields d lb = (d1, None)
    ∧ setTags d1 (IgnoreTagsConfig meta) conn = (d2, conn2, None)
    ∧ DescribeLoadBalancerAttributes conn2 (String_ptr (Id d2)) =
        (Ok (mkDescribeLoadBalancerAttributesOutput attrs), conn3).

(** A failed read leaves the record as it was before the call. *)
Definition failedReadLeavesRecord {Conn : Type} `{ELBV2API Conn} `{Helpers}
    (d : ResourceData) (meta : AWSClient Conn) : Prop :=
  ∀ d' conn' err, dataSourceAwsLbRead d meta = (d', conn', Some err) → d' = d.

(** The reading of a nil page as the end of the results: the turns
    before the first nil page are turns with a page, paging stops at the
    nil page with what those turns delivered, and the turns after it are
    never asked for. *)
Definition hasPage (ev : PageEvent) : Prop :=
  match ev with
  | page_ok (Some _) _ => True
  | _ => False
  end.

Definition nilPageEndsPaging (events : list PageEvent) : Prop :=
  ∀ pre lastPage rest,
    events = pre ++ page_ok None lastPage :: rest →
    Forall hasPage pre →
    EachPage pageCallback events [] = (concat (map entities pre), None, rest).

(** ** A scripted service, to run the read operation on

    The connection holds what the service will answer: the paginator
    turns of the list request, the answers to the tag requests in the
    order they will be asked, and the answers to the attribute
    requests. A request beyond the script fails. *)

Record Script := mkScript {
  script_pages : list PageEvent;
  script_tags : list (result KeyValueTags);
  script_attributes : list (result DescribeLoadBalancerAttributesOutput)
}.

#[export] Instance Script_API : ELBV2API Script := {|
  loadBalancerPages c _ :=
    (script_pages c, mkScript [] (script_tags c) (script_attributes c));
  Elbv2ListTags c _ :=
    match script_tags c with
    | r :: rest => (r, mkScript (script_pages c) rest (script_attributes c))
    | [] => (Err (otherError "RequestError"), c)
    end;
  DescribeLoadBalancerAttributes c _ :=
    match script_attributes c with
    | r :: rest => (r, mkScript (script_pages c) (script_tags c) rest)
    | [] => (Err (otherError "RequestError"), c)
    end
|}.

(** Helpers to run the examples with: keys under [aws:] are the
    provider's own, the configured ignore list is empty, and the
    flatteners copy the identifiers. *)
#[export] Instance example_Helpers : Helpers := {|
  IgnoreConfigT := unit;
  IgnoreAws tags := filter (λ kv, String.prefix "aws:" kv.1 = false) tags;
  IgnoreConfig _ tags := tags;
  lbSuffixFromARN arn := StringValue arn;
  flattenStringList l := VSlice (map (λ p, EPrim (PString (StringValue p))) l);
  flattenSubnetsFromAvailabilityZones azs :=
    VSlice (map (λ az, EPrim (PString (StringValue (SubnetId az)))) azs);
  flattenSubnetMappingsFromAvailabilityZones azs :=
    VSlice (map (λ az, EObject
      (<["subnet_id" := PString (StringValue (SubnetId az))]>
      (<["outpost_id" := PString (StringValue (OutpostId az))]> ∅))) azs)
|}.

Definition example_lb (arn name : string) : LoadBalancer :=
  mkLoadBalancer (Some arn) (Some name) (Some "internal") [Some "sg-1"]
    (Some "vpc-1") (Some "Z1") (Some "lb.example.com") (Some "ipv4")
    (Some "application") None
    [mkAvailabilityZone [] None (Some "subnet-1") (Some "eu-west-1a")].

Definition lb_a : LoadBalancer := example_lb "arn:a" "a".
Definition lb_b : LoadBalancer := example_lb "arn:b" "b".
Definition lb_c : LoadBalancer := example_lb "arn:c" "c".

Definition page_of (lbs : list LoadBalancer) : option DescribeLoadBalancersOutput :=
  Some (mkDescribeLoadBalancersOutput lbs).

Definition attribute (k v : string) : Attribute := mkAttribute (Some k) (Some v).

(** A record with nothing written, configured with the given fields. *)
Definition configured (config : gmap string FieldValue) : ResourceData :=
  mkResourceData config ∅ "".

Definition client (c : Script) : AWSClient Script := mkAWSClient c tt.

Definition env_prod : KeyValueTags := {[ "env" := "prod" ]}.
Definition env_staging : KeyValueTags := {[ "env" := "staging" ]}.
Definition env_prod_team_x : KeyValueTags := <["env" := "prod"]> {[ "team" := "x" ]}.

(** Three load balancers on one page, no criteria. *)
Definition three_on_one_page : Script :=
  mkScript [page_ok (page_of [lb_a; lb_b; lb_c]) true] [] [].

(** A nil page that is not the last, then a page. *)
Definition nil_then_page : list PageEvent :=
  [page_ok None false; page_ok (page_of [lb_a]) true].

(** A page, a nil page, a last page, and a turn never asked for. *)
Definition four_turns : list PageEvent :=
  [page_ok (page_of [lb_a; lb_b]) false; page_ok None false;
   page_ok (page_of [lb_c]) true; page_err (otherError "RequestError")].

(** Criteria with both an identifier and a name. *)
Definition arn_and_name : ResourceData :=
  configured (<["arn" := VString "arn:a"]> (<["name" := VString "b"]> ∅)).

(** Criteria with a name only, and an identifier set to the empty string. *)
Definition name_only : ResourceData :=
  configured (<["arn" := VString ""]> (<["name" := VString "b"]> ∅)).

(** A predicate [{env: prod}] over three load balancers tagged
    [{env: staging}], [{env: prod, team: x}] and (the third, deleted in
    the meantime) not found; the survivor's tags and attributes follow. *)
Definition wants_env_prod : ResourceData :=
  configured (<["tags" := VMap env_prod]> ∅).

Definition notFound : error := awsError "LoadBalancerNotFound" "not found".

Definition accessDenied : error := awsError "AccessDenied" "not authorized".

Definition one_attribute (k v : string) : result DescribeLoadBalancerAttributesOutput :=
  Ok (mkDescribeLoadBalancerAttributesOutput [attribute k v]).

Definition staging_prod_gone : Script :=
  mkScript [page_ok (page_of [lb_a; lb_b; lb_c]) true]
    [Ok env_staging; Ok env_prod_team_x; Err notFound; Ok env_prod_team_x]
    [one_attribute "idle_timeout.timeout_seconds" "60"].

(** The same listing, the second tag request refused. *)
Definition staging_then_denied : Script :=
  mkScript [page_ok (page_of [lb_a; lb_b; lb_c]) true]
    [Ok env_staging; Err accessDenied] [].

(** One load balancer and no criteria; its tags are read once, after
    the resolution, and its attributes follow. *)
Definition one_lb (tags : result KeyValueTags) (attrs : list Attribute) : Script :=
  mkScript [page_ok (page_of [lb_a]) true] [tags]
    [Ok (mkDescribeLoadBalancerAttributesOutput attrs)].

Definition timeout_60 : list Attribute :=
  [attribute "routing.http2.enabled" "true";
   attribute "idle_timeout.timeout_seconds" "60";
   attribute "load_balancing.cross_zone.enabled" "true"].

Definition timeout_abc : list Attribute :=
  [attribute "routing.http2.enabled" "true";
   attribute "idle_timeout.timeout_seconds" "abc";
   attribute "load_balancing.cross_zone.enabled" "true"].

(** The predicate [{env: prod}] again; the survivor is gone when its
    tags are read for the second time. *)
Definition gone_at_last : Script :=
  mkScript [page_ok (page_of [lb_a; lb_b; lb_c]) true]
    [Ok env_staging; Ok env_prod_team_x; Err notFound; Err notFound] [].

(** The record of the examples once [lb_a] is resolved and its fields
    are written, and once its tags [{env: prod}] are written too. *)
Definition resolved_a : ResourceData := (setFields (configured ∅) lb_a).1.

Definition tagged_a : ResourceData :=
  mkResourceData (rd_config resolved_a)
    (<["tags" := VMap env_prod]> (rd_state resolved_a)) (rd_id resolved_a).

Definition cross_zone_true : list Attribute :=
  [attribute "load_balancing.cross_zone.enabled" "true"].

(** ** Further vocabulary and inputs *)

(** The last value an attribute list gives for a key, if any. *)
Fixpoint lastValue (key : string) (attrs : list Attribute) : option string :=
  match attrs with
  | [] => None
  | a :: rest =>
      match lastValue key rest with
      | Some v => Some v
      | None =>
          if String.eqb (StringValue (Key a)) key
          then Some (StringValue (Value a)) else None
      end
  end.

(** The keys the switch of lines 265-290 has a case for. *)
Definition recognisedKeys : list string :=
  ["access_logs.s3.enabled"; "access_logs.s3.bucket"; "access_logs.s3.prefix";
   "idle_timeout.timeout_seconds"; "routing.http.drop_invalid_header_fields.enabled";
   "deletion_protection.enabled"; "routing.http2.enabled";
   "load_balancing.cross_zone.enabled"].

(** The fields of lines 221-231 that copy a string of the load balancer. *)
Definition copiedFields : list (string * (LoadBalancer → option string)) :=
  [("arn", LoadBalancerArn); ("name", LoadBalancerName); ("vpc_id", VpcId);
   ("zone_id", CanonicalHostedZoneId); ("dns_name", DNSName);
   ("ip_address_type", IpAddressType); ("load_balancer_type", Type_);
   ("customer_owned_ipv4_pool", CustomerOwnedIpv4Pool)].

(** The fields the loop over the attributes writes with [d.Set] when
    the schema has them. *)
Definition attributeFields : list string :=
  ["idle_timeout"; "drop_invalid_header_fields"; "enable_deletion_protection";
   "enable_http2"].

(** Two pages, then a request that fails. *)
Definition pages_then_error : list PageEvent :=
  [page_ok (page_of [lb_a]) false; page_ok (page_of [lb_b]) false;
   page_err (otherError "RequestError")].

(** Two pages and a nil page, none flagged as the last. *)
Definition pages_run_out : list PageEvent :=
  [page_ok (page_of [lb_a]) false; page_ok None false; page_ok (page_of [lb_b; lb_c]) false].

(** A predicate whose only key is one of the provider's own. *)
Definition wants_aws_key : ResourceData :=
  configured (<["tags" := VMap {[ "aws:cloudformation:stack-name" := "s" ]}]> ∅).

(** One load balancer matching [{env: prod}] when filtered, retagged
    [{env: staging}] by the time its tags are read again. *)
Definition retagged : Script :=
  mkScript [page_ok (page_of [lb_a]) true] [Ok env_prod; Ok env_staging]
    [Ok (mkDescribeLoadBalancerAttributesOutput [])].

(** One load balancer whose attribute request is refused. *)
Definition attributes_denied : Script :=
  mkScript [page_ok (page_of [lb_a]) true] [Ok env_prod] [Err accessDenied].

(** A load balancer with no scheme and no name. *)
Definition lb_bare : LoadBalancer :=
  mkLoadBalancer (Some "arn:bare") None None [] None None None None None None [].

(** Attributes with an unknown key, a nil key, and access-log keys, one
    of them twice. *)
Definition logs_twice : list Attribute :=
  [attribute "access_logs.s3.bucket" "first";
   attribute "connection_logs.s3.enabled" "true";
   attribute "access_logs.s3.enabled" "true";
   mkAttribute None (Some "true");
   attribute "access_logs.s3.bucket" "second"].

(** * Properties *)

(** ** Errors and formatting *)

Lemma fmt_d_inj (n m : nat) : fmt_d n = fmt_d m → n = m.
Proof.
  unfold fmt_d. intros E.
  assert (U : Nat.to_uint n = Nat.to_uint m).
  { apply (f_equal NilEmpty.uint_of_string) in E.
    rewrite !NilEmpty.usu in E. congruence. }
  apply (f_equal Nat.of_uint) in U.
  by rewrite !DecimalNat.Unsigned.of_to in U.
Qed.

Lemma string_app_inj_l (p s t : string) : p +:+ s = p +:+ t → s = t.
Proof. induction p as [|c p IH]; simpl; [done|]. intros [= E]. auto. Qed.

Lemma string_app_inj_r (s t q : string) :
  String.length s = String.length t → s +:+ q = t +:+ q → s = t.
Proof.
  revert t. induction s as [|c s IH]; intros [|c' t]; simpl; try done.
  intros [= L] [= -> E]. f_equal. auto.
Qed.

Lemma string_length_app (s t : string) :
  String.length (s +:+ t) = String.length s + String.length t.
Proof. induction s as [|c s IH]; simpl; [done|]. by rewrite IH. Qed.

(** ** The paginator and the callback *)

Section ReadFacts.
Context {Conn : Type} `{ELBV2API Conn} `{Helpers}.

Lemma EachPage_notLast (evs rest : list PageEvent) (results : list LoadBalancer) :
  Forall notLast evs →
  EachPage pageCallback (evs ++ rest) results =
  EachPage pageCallback rest (results ++ concat (map entities evs)).
Proof.
  intros F. revert results.
  induction F as [|ev evs Hev _ IH]; intros results; simpl.
  - by rewrite app_nil_r.
  - destruct ev as [[p|] lastPage|e]; simpl in Hev; [| |done]; subst lastPage; simpl.
    + by rewrite IH, app_assoc.
    + by rewrite IH.
Qed.

Lemma listLoadBalancers_events (conn conn' : Conn)
    (input : DescribeLoadBalancersInput) (evs : list PageEvent) :
  loadBalancerPages conn input = (evs, conn') →
  listLoadBalancers conn input =
  match EachPage pageCallback evs [] with
  | (results, Some e, _) => (Err (wrapError "error retrieving LB: " e), conn')
  | (results, None, _) => (Ok results, conn')
  end.
Proof.
  intros E. unfold listLoadBalancers, DescribeLoadBalancersPages. rewrite E.
  by destruct (EachPage pageCallback evs []) as [[results [e|]] remaining].
Qed.

End ReadFacts.

(** ** The list request and the paging *)

Section Paging.
Context {Conn : Type} `{ELBV2API Conn} `{Helpers}.

(** C6, as amended. Entities are accumulated in arrival order. A nil
    page contributes nothing and does not abort; paging goes on after
    it unless it is flagged as the last page. Paging stops at the first
    turn flagged last, nil or not, and the turns after it are not
    consumed; the list phase then succeeds with what was accumulated. *)
Theorem paging_stops_at_last_page (conn conn' : Conn)
    (input : DescribeLoadBalancersInput)
    (pre rest : list PageEvent) (page : option DescribeLoadBalancersOutput) :
  loadBalancerPages conn input = (pre ++ page_ok page true :: rest, conn') →
  Forall notLast pre →
  EachPage pageCallback (pre ++ page_ok page true :: rest) [] =
    (concat (map entities pre) ++ entities (page_ok page true), None, rest)
  ∧ listLoadBalancers conn input =
    (Ok (concat (map entities pre) ++ entities (page_ok page true)), conn').
Proof.
  intros E F.
  assert (P : EachPage pageCallback (pre ++ page_ok page true :: rest) [] =
    (concat (map entities pre) ++ entities (page_ok page true), None, rest)).
  { rewrite (EachPage_notLast pre _ [] F). simpl.
    destruct page as [p|]; simpl; [done|]. by rewrite app_nil_r. }
  split; [exact P|].
  rewrite (listLoadBalancers_events _ _ _ _ E). by rewrite P.
Qed.

End Paging.

Lemma paging_stops_at_last_page_witness :
  EachPage pageCallback four_turns [] =
    ([lb_a; lb_b; lb_c], None, [page_err (otherError "RequestError")])
  ∧ listLoadBalancers (mkScript four_turns [] []) (mkDescribeLoadBalancersInput [] []) =
    (Ok [lb_a; lb_b; lb_c], mkScript [] [] []).
Proof.
  apply (paging_stops_at_last_page (mkScript four_turns [] []) (mkScript [] [] [])
           (mkDescribeLoadBalancersInput [] [])
           [page_ok (page_of [lb_a; lb_b]) false; page_ok None false]
           [page_err (otherError "RequestError")] (page_of [lb_c])).
  - reflexivity.
  - repeat constructor.
Defined.

(** C6, as the claim words it, fails: after a nil page that is not
    flagged last the paginator is asked for the next page, whose
    entities are accumulated. *)
Lemma nil_page_does_not_end_paging : ¬ nilPageEndsPaging nil_then_page.
Proof.
  intros P.
  specialize (P [] false [page_ok (page_of [lb_a]) true] eq_refl (Forall_nil_2 _)).
  discriminate P.
Qed.

(** ** The list request *)

Section Request.
Context {Conn : Type} `{ELBV2API Conn} `{Helpers}.

Lemma GetOk_string_present (d : ResourceData) (key s : string) :
  rd_get d key = Some (VString s) → s ≠ "" → GetOk_string d key = (s, true).
Proof.
  intros E N. unfold GetOk_string. rewrite E. simpl.
  destruct (String.eqb_spec s ""); [done|reflexivity].
Qed.

Lemma GetOk_string_absent (d : ResourceData) (key : string) :
  ¬ (∃ s, rd_get d key = Some (VString s) ∧ s ≠ "") →
  (GetOk_string d key).2 = false.
Proof.
  intros N. unfold GetOk_string.
  destruct (rd_get d key) as [[[|s| |]| |]|] eqn:E; try reflexivity.
  simpl. destruct (String.eqb_spec s ""); [reflexivity|].
  exfalso. apply N. by exists s.
Qed.

(** C7. A criterion is present when the record holds a string other
    than the empty one for it (this is what [d.GetOk] reports). The
    request filters by the identifier when it is present, whatever the
    name; else by the name when it is present; else it carries no
    filter. The construction is a total function: it cannot fail. *)
Theorem buildInput_policy (d : ResourceData) :
  (∀ arn, rd_get d "arn" = Some (VString arn) → arn ≠ "" →
     buildInput d = mkDescribeLoadBalancersInput [Some arn] [])
  ∧ (∀ name,
       ¬ (∃ arn, rd_get d "arn" = Some (VString arn) ∧ arn ≠ "") →
       rd_get d "name" = Some (VString name) → name ≠ "" →
       buildInput d = mkDescribeLoadBalancersInput [] [Some name])
  ∧ (¬ (∃ arn, rd_get d "arn" = Some (VString arn) ∧ arn ≠ "") →
     ¬ (∃ name, rd_get d "name" = Some (VString name) ∧ name ≠ "") →
     buildInput d = mkDescribeLoadBalancersInput [] []).
Proof.
  unfold buildInput. repeat split.
  - intros arn E N. by rewrite (GetOk_string_present d "arn" arn E N).
  - intros name NA E N.
    pose proof (GetOk_string_absent d "arn" NA) as A.
    destruct (GetOk_string d "arn") as [a ok]. simpl in A. subst ok.
    by rewrite (GetOk_string_present d "name" name E N).
  - intros NA NN.
    pose proof (GetOk_string_absent d "arn" NA) as A.
    pose proof (GetOk_string_absent d "name" NN) as B.
    destruct (GetOk_string d "arn") as [a ok]. simpl in A. subst ok.
    destruct (GetOk_string d "name") as [n ok]. simpl in B. by subst ok.
Qed.

End Request.

Lemma buildInput_policy_witness :
  buildInput arn_and_name = mkDescribeLoadBalancersInput [Some "arn:a"] []
  ∧ buildInput name_only = mkDescribeLoadBalancersInput [] [Some "b"]
  ∧ buildInput (configured ∅) = mkDescribeLoadBalancersInput [] [].
Proof.
  split; [|split].
  - apply (proj1 (buildInput_policy arn_and_name) "arn:a"); [reflexivity|discriminate].
  - apply (proj1 (proj2 (buildInput_policy name_only)) "b");
      [|reflexivity|discriminate].
    intros [arn [E N]]. vm_compute in E. congruence.
  - apply (proj2 (proj2 (buildInput_policy (configured ∅)))).
    + intros [arn [E N]]. vm_compute in E. congruence.
    + intros [name [E N]]. vm_compute in E. congruence.
Defined.

(** ** The cardinality check *)

Lemma searchError_inj (n m : nat) : searchError n = searchError m → n = m.
Proof.
  unfold searchError. intros [= E].
  apply string_app_inj_l in E.
  apply fmt_d_inj.
  destruct (decide (String.length (fmt_d n) = String.length (fmt_d m))) as [L|L].
  - by apply string_app_inj_r in E.
  - apply (f_equal String.length) in E.
    rewrite !string_length_app in E. lia.
Qed.

Section Cardinality.
Context {Conn : Type} `{ELBV2API Conn} `{Helpers}.

(** C1. Once listing and filtering have left [results], a count other
    than one makes the read fail with the error of line 214, whose text
    carries that count in decimal (and no other count gives the same
    text), the record being left as it was; a count of one is the only
    way past the check, to the projection of that load balancer. *)
Theorem read_cardinality (d : ResourceData) (meta : AWSClient Conn)
    (results : list LoadBalancer) (conn : Conn) :
  candidates d meta = (Ok results, conn) →
  (length results ≠ 1 →
     dataSourceAwsLbRead d meta =
       (d, conn, Some (errorString ("Search returned " +:+ fmt_d (length results) +:+
                          " results, please revise so only one is returned")))
     ∧ ∀ n, searchError n = searchError (length results) → n = length results)
  ∧ (length results = 1 →
     ∃ lb, results = [lb] ∧
       dataSourceAwsLbRead d meta = project d (IgnoreTagsConfig meta) conn lb).
Proof.
  intros E. unfold dataSourceAwsLbRead. rewrite E. split.
  - intros N. split; [|intros n; apply searchError_inj].
    destruct (Nat.eqb_spec (length results) 1); [done|reflexivity].
  - intros L. destruct results as [|lb [|lb' rest]]; simpl in L; try done.
    exists lb. split; reflexivity.
Qed.

End Cardinality.

Lemma read_cardinality_witness :
  dataSourceAwsLbRead (configured ∅) (client three_on_one_page) =
    (configured ∅, mkScript [] [] [],
     Some (errorString "Search returned 3 results, please revise so only one is returned")).
Proof.
  destruct (read_cardinality (configured ∅) (client three_on_one_page)
              [lb_a; lb_b; lb_c] (mkScript [] [] [])) as [Many _].
  - vm_compute. reflexivity.
  - apply Many. simpl. lia.
Defined.

Example read_no_results :
  dataSourceAwsLbRead (configured ∅) (client (mkScript [page_ok (page_of []) true] [] [])) =
    (configured ∅, mkScript [] [] [],
     Some (errorString "Search returned 0 results, please revise so only one is returned")).
Proof. vm_compute. reflexivity. Qed.

(** ** The tag filter *)

Lemma ContainsAll_spec (tags target : KeyValueTags) :
  ContainsAll tags target = true ↔ ∀ k v, target !! k = Some v → tags !! k = Some v.
Proof. unfold ContainsAll. rewrite bool_decide_eq_true. reflexivity. Qed.

Section Filter.
Context {Conn : Type} `{ELBV2API Conn} `{Helpers}.

Lemma filterByTags_acc (tagsToMatch : KeyValueTags) (results : list LoadBalancer) :
  ∀ (conn : Conn) (loadBalancers : list LoadBalancer),
    filterByTags conn tagsToMatch results loadBalancers =
    after_ loadBalancers (filterByTags conn tagsToMatch results []).
Proof.
  induction results as [|lb rest IH]; intros conn acc; simpl.
  - by rewrite app_nil_r.
  - destruct (Elbv2ListTags conn _) as [[tags|err] conn'].
    + destruct (ContainsAll tags tagsToMatch); simpl; [|apply IH].
      rewrite (IH conn' (acc ++ [lb])), (IH conn' [lb]).
      destruct (filterByTags conn' tagsToMatch rest []) as [[s|e] c]; simpl; [|done].
      by rewrite <- app_assoc.
    + destruct (ErrCodeEquals err _); [apply IH|done].
Qed.

Lemma filterByTags_app (tagsToMatch : KeyValueTags) (pre rest : list LoadBalancer) :
  ∀ (conn : Conn) (loadBalancers : list LoadBalancer),
    filterByTags conn tagsToMatch (pre ++ rest) loadBalancers =
    match filterByTags conn tagsToMatch pre loadBalancers with
    | (Ok kept, conn') => filterByTags conn' tagsToMatch rest kept
    | (Err e, conn') => (Err e, conn')
    end.
Proof.
  induction pre as [|lb pre IH]; intros conn acc; simpl; [done|].
  destruct (Elbv2ListTags conn _) as [[tags|err] conn'].
  - destruct (ContainsAll tags tagsToMatch); simpl; apply IH.
  - destruct (ErrCodeEquals err _); [apply IH|done].
Qed.

Lemma filterPhase_nonempty (conn : Conn) (tagsToMatch : KeyValueTags)
    (results : list LoadBalancer) :
  0 < size tagsToMatch →
  filterPhase conn tagsToMatch results = filterByTags conn tagsToMatch results [].
Proof.
  intros S. unfold filterPhase. by destruct (Nat.ltb_spec 0 (size tagsToMatch)); [|lia].
Qed.

Lemma candidates_listed (d : ResourceData) (meta : AWSClient Conn)
    (results : list LoadBalancer) (conn : Conn) :
  listLoadBalancers (elbv2conn meta) (buildInput d) = (Ok results, conn) →
  candidates d meta = filterPhase conn (tagsToMatch_of d meta) results.
Proof. intros E. unfold candidates. by rewrite E. Qed.

(** C2. With a non-empty predicate, a candidate whose tags are fetched
    survives exactly when its tags hold every key of the predicate with
    an equal value: the survivors are those before it, the candidate if
    and only if it matches, and those after it. *)
Theorem tag_filter_conjunctive (d : ResourceData) (meta : AWSClient Conn)
    (pre rest kept : list LoadBalancer) (lb : LoadBalancer)
    (conn conn1 conn2 : Conn) (tags : KeyValueTags) :
  0 < size (tagsToMatch_of d meta) →
  listLoadBalancers (elbv2conn meta) (buildInput d) = (Ok (pre ++ lb :: rest), conn) →
  filterPhase conn (tagsToMatch_of d meta) pre = (Ok kept, conn1) →
  Elbv2ListTags conn1 (StringValue (LoadBalancerArn lb)) = (Ok tags, conn2) →
  (ContainsAll tags (tagsToMatch_of d meta) = true ↔
     ∀ k v, tagsToMatch_of d meta !! k = Some v → tags !! k = Some v)
  ∧ candidates d meta =
      after_ (kept ++ (if ContainsAll tags (tagsToMatch_of d meta) then [lb] else []))
             (filterPhase conn2 (tagsToMatch_of d meta) rest)
  ∧ ContainsAll env_staging env_prod = false
  ∧ ContainsAll env_prod_team_x env_prod = true.
Proof.
  intros S L P T. split; [apply ContainsAll_spec|]. split; [|by vm_compute].
  rewrite (candidates_listed _ _ _ _ L).
  rewrite !filterPhase_nonempty in * by done.
  rewrite filterByTags_app, P. simpl. rewrite T.
  destruct (ContainsAll tags _); simpl.
  - apply filterByTags_acc.
  - rewrite app_nil_r. apply filterByTags_acc.
Qed.

(** C3. In the filtering phase, a candidate whose tag request is
    answered with the not-found code is left out and the loop goes on
    with the candidates after it; any other error ends the read with
    the error of line 200, which wraps it and names the candidate. *)
Theorem tag_filter_errors (d : ResourceData) (meta : AWSClient Conn)
    (pre rest kept : list LoadBalancer) (lb : LoadBalancer)
    (conn conn1 conn2 : Conn) (err : error) :
  0 < size (tagsToMatch_of d meta) →
  listLoadBalancers (elbv2conn meta) (buildInput d) = (Ok (pre ++ lb :: rest), conn) →
  filterPhase conn (tagsToMatch_of d meta) pre = (Ok kept, conn1) →
  Elbv2ListTags conn1 (StringValue (LoadBalancerArn lb)) = (Err err, conn2) →
  (ErrCodeEquals err ErrCodeLoadBalancerNotFoundException = true →
     candidates d meta = after_ kept (filterPhase conn2 (tagsToMatch_of d meta) rest))
  ∧ (ErrCodeEquals err ErrCodeLoadBalancerNotFoundException = false →
     dataSourceAwsLbRead d meta =
       (d, conn2,
        Some (wrapError ("error listing tags for (" +:+
                         StringValue (LoadBalancerArn lb) +:+ "): ") err))).
Proof.
  intros S L P T.
  assert (C : candidates d meta =
    match Elbv2ListTags conn1 (StringValue (LoadBalancerArn lb)) with
    | (r, c) => filterByTags conn1 (tagsToMatch_of d meta) (lb :: rest) kept
    end).
  { rewrite (candidates_listed _ _ _ _ L).
    rewrite !filterPhase_nonempty in * by done.
    rewrite filterByTags_app, P. by destruct (Elbv2ListTags conn1 _). }
  rewrite T in C. simpl in C. rewrite T in C. split; intros N; rewrite N in C.
  - rewrite C, filterPhase_nonempty by done. apply filterByTags_acc.
  - unfold dataSourceAwsLbRead. by rewrite C.
Qed.

End Filter.

Lemma tag_filter_conjunctive_witness :
  candidates wants_env_prod (client staging_prod_gone) =
    (Ok [lb_b],
     mkScript [] [Ok env_prod_team_x] [one_attribute "idle_timeout.timeout_seconds" "60"]).
Proof.
  destruct (tag_filter_conjunctive wants_env_prod (client staging_prod_gone)
              [lb_a] [lb_c] [] lb_b
              (mkScript [] (script_tags staging_prod_gone)
                 (script_attributes staging_prod_gone))
              (mkScript [] (tail (script_tags staging_prod_gone))
                 (script_attributes staging_prod_gone))
              (mkScript [] (tail (tail (script_tags staging_prod_gone)))
                 (script_attributes staging_prod_gone))
              env_prod_team_x) as (_ & Survivors & _).
  - vm_compute. lia.
  - vm_compute. reflexivity.
  - vm_compute. reflexivity.
  - vm_compute. reflexivity.
  - refine (eq_trans Survivors _). vm_compute. reflexivity.
Defined.

Lemma tag_filter_errors_witness :
  candidates wants_env_prod (client staging_prod_gone) =
    (Ok [lb_b],
     mkScript [] [Ok env_prod_team_x] [one_attribute "idle_timeout.timeout_seconds" "60"])
  ∧ dataSourceAwsLbRead wants_env_prod (client staging_then_denied) =
    (wants_env_prod, mkScript [] [] [],
     Some (wrapError "error listing tags for (arn:b): " accessDenied)).
Proof.
  split.
  - destruct (tag_filter_errors wants_env_prod (client staging_prod_gone)
                [lb_a; lb_b] [] [lb_b] lb_c
                (mkScript [] (script_tags staging_prod_gone)
                   (script_attributes staging_prod_gone))
                (mkScript [] [Err notFound; Ok env_prod_team_x]
                   (script_attributes staging_prod_gone))
                (mkScript [] [Ok env_prod_team_x]
                   (script_attributes staging_prod_gone))
                notFound) as [Dropped _].
    + vm_compute. lia.
    + vm_compute. reflexivity.
    + vm_compute. reflexivity.
    + vm_compute. reflexivity.
    + refine (eq_trans (Dropped _) _); vm_compute; reflexivity.
  - destruct (tag_filter_errors wants_env_prod (client staging_then_denied)
                [lb_a] [lb_c] [] lb_b
                (mkScript [] (script_tags staging_then_denied) [])
                (mkScript [] [Err accessDenied] [])
                (mkScript [] [] [])
                accessDenied) as [_ Abort].
    + vm_compute. lia.
    + vm_compute. reflexivity.
    + vm_compute. reflexivity.
    + vm_compute. reflexivity.
    + refine (eq_trans (Abort _) _); vm_compute; reflexivity.
Defined.

(** ** Writing the record *)

Lemma Set_id (d : ResourceData) (key : string) (value : FieldValue) :
  rd_id (Set_ d key value).1 = rd_id d ∧ rd_config (Set_ d key value).1 = rd_config d.
Proof.
  unfold Set_. destruct (dataSourceAwsLb !! key) as [ty|]; [|done].
  by destruct (conforms ty value).
Qed.

Lemma Set_state_ne (d : ResourceData) (key key' : string) (value : FieldValue) :
  key ≠ key' → rd_state (Set_ d key value).1 !! key' = rd_state d !! key'.
Proof.
  intros N. unfold Set_. destruct (dataSourceAwsLb !! key) as [ty|]; [|done].
  destruct (conforms ty value); [|done]. simpl. by rewrite lookup_insert_ne.
Qed.

Lemma Set_accepted (d : ResourceData) (key : string) (ty : SchemaType)
    (value : FieldValue) :
  dataSourceAwsLb !! key = Some ty → conforms ty value = true →
  Set_ d key value =
    (mkResourceData (rd_config d) (<[key := value]> (rd_state d)) (rd_id d), None).
Proof. intros S C. unfold Set_. by rewrite S, C. Qed.

Lemma Set_refused (d : ResourceData) (key : string) (value : FieldValue) :
  dataSourceAwsLb !! key = None →
  Set_ d key value = (d, Some (setError key InvalidAddress)).
Proof. intros S. unfold Set_. by rewrite S. Qed.

Lemma Set_ignored_id (d : ResourceData) (key : string) (value : FieldValue) :
  rd_id (Set_ignored d key value) = rd_id d.
Proof. apply Set_id. Qed.

Lemma Set_ignored_state_ne (d : ResourceData) (key key' : string) (value : FieldValue) :
  key ≠ key' → rd_state (Set_ignored d key value) !! key' = rd_state d !! key'.
Proof. apply Set_state_ne. Qed.

Lemma Set_ignored_state_eq (d : ResourceData) (key : string) (ty : SchemaType)
    (value : FieldValue) :
  dataSourceAwsLb !! key = Some ty → conforms ty value = true →
  rd_state (Set_ignored d key value) !! key = Some value.
Proof.
  intros S C. unfold Set_ignored. rewrite (Set_accepted d key ty value S C).
  simpl. apply lookup_insert_eq.
Qed.

(** The schema has no field for the cross-zone flag. *)
Lemma no_cross_zone_field : dataSourceAwsLb !! "enable_cross_zone_load_balancing" = None.
Proof. vm_compute. reflexivity. Qed.

(** ** The loop over the attributes *)

Ltac key_cases :=
  repeat match goal with
  | |- context [if String.eqb (StringValue (Key ?a)) ?lit then _ else _] =>
      destruct (String.eqb_spec (StringValue (Key a)) lit)
  end.

Lemma attributesLoop_app (pre rest : list Attribute) :
  ∀ (d : ResourceData) (accessLogMap : gmap string PrimValue),
    attributesLoop (pre ++ rest) d accessLogMap =
    match attributesLoop pre d accessLogMap with
    | (d', accessLogMap', None) => attributesLoop rest d' accessLogMap'
    | stopped => stopped
    end.
Proof.
  induction pre as [|a pre IH]; intros d m; [done|].
  rewrite <- app_comm_cons. cbn [attributesLoop]. key_cases; try apply IH.
  destruct (Atoi _); [apply IH|done].
Qed.

Lemma attributesLoop_completes (attrs : list Attribute) :
  Forall parses attrs →
  ∀ (d : ResourceData) (accessLogMap : gmap string PrimValue),
    (attributesLoop attrs d accessLogMap).2 = None.
Proof.
  induction 1 as [|a attrs P _ IH]; intros d m; [done|].
  cbn [attributesLoop]. key_cases; try apply IH.
  destruct (P ltac:(assumption)) as [timeout ->]. apply IH.
Qed.

Lemma attributesLoop_id (attrs : list Attribute) :
  ∀ (d : ResourceData) (accessLogMap : gmap string PrimValue),
    rd_id (attributesLoop attrs d accessLogMap).1.1 = rd_id d.
Proof.
  induction attrs as [|a attrs IH]; intros d m; [done|].
  cbn [attributesLoop]. key_cases; try (rewrite IH; try apply Set_ignored_id; done).
  destruct (Atoi _); [|done]. rewrite IH. apply Set_ignored_id.
Qed.

Lemma attributesLoop_keeps (field : string) (attrs : list Attribute) :
  Forall (λ a, fieldOf (StringValue (Key a)) ≠ Some field) attrs →
  ∀ (d : ResourceData) (accessLogMap : gmap string PrimValue),
    rd_state (attributesLoop attrs d accessLogMap).1.1 !! field = rd_state d !! field.
Proof.
  induction 1 as [|a attrs K _ IH]; intros d m; [done|].
  cbn [attributesLoop]. key_cases; try apply IH;
    match goal with E : StringValue (Key _) = _ |- _ => rewrite E in K end;
    vm_compute in K.
  - destruct (Atoi _); [|done]. rewrite IH. apply Set_ignored_state_ne. congruence.
  - rewrite IH. apply Set_ignored_state_ne. congruence.
  - rewrite IH. apply Set_ignored_state_ne. congruence.
  - rewrite IH. apply Set_ignored_state_ne. congruence.
Qed.

Lemma attributesLoop_log_kept (attrs : list Attribute) :
  Forall notAccessLog attrs →
  ∀ (d : ResourceData) (accessLogMap : gmap string PrimValue),
    (attributesLoop attrs d accessLogMap).1.2 = accessLogMap.
Proof.
  induction 1 as [|a attrs (N1 & N2 & N3) _ IH]; intros d m; [done|].
  cbn [attributesLoop]. key_cases; try done; try apply IH.
  destruct (Atoi _); [apply IH|done].
Qed.

Lemma attributesLoop_never_cross_zone (attrs : list Attribute) :
  ∀ (d : ResourceData) (accessLogMap : gmap string PrimValue),
    rd_state (attributesLoop attrs d accessLogMap).1.1
      !! "enable_cross_zone_load_balancing" =
    rd_state d !! "enable_cross_zone_load_balancing".
Proof.
  induction attrs as [|a attrs IH]; intros d m; [done|].
  cbn [attributesLoop]. key_cases; try apply IH.
  - destruct (Atoi _); [|done]. rewrite IH. by apply Set_ignored_state_ne.
  - rewrite IH. by apply Set_ignored_state_ne.
  - rewrite IH. by apply Set_ignored_state_ne.
  - rewrite IH. by apply Set_ignored_state_ne.
Qed.

Lemma objectConforms_insert (fields : gmap string PrimType)
    (o : gmap string PrimValue) (key : string) (p : PrimValue) (t : PrimType) :
  fields !! key = Some t → primConforms t p = true →
  objectConforms fields o = true → objectConforms fields (<[key := p]> o) = true.
Proof.
  unfold objectConforms. rewrite !bool_decide_eq_true.
  intros F P C k t' Fk. unfold fieldConforms.
  destruct (decide (key = k)) as [->|N].
  - rewrite lookup_insert_eq. congruence.
  - rewrite lookup_insert_ne by done. apply (C k t' Fk).
Qed.

Lemma attributesLoop_log_conforms (attrs : list Attribute) :
  ∀ (d : ResourceData) (accessLogMap : gmap string PrimValue),
    objectConforms accessLogsResource accessLogMap = true →
    objectConforms accessLogsResource (attributesLoop attrs d accessLogMap).1.2 = true.
Proof.
  induction attrs as [|a attrs IH]; intros d m C; [done|].
  cbn [attributesLoop]. key_cases; try (apply IH; exact C).
  - apply IH. by apply (objectConforms_insert _ _ _ _ TypeBool).
  - apply IH. by apply (objectConforms_insert _ _ _ _ TypeString).
  - apply IH. by apply (objectConforms_insert _ _ _ _ TypeString).
  - destruct (Atoi _); [by apply IH|done].
Qed.

Lemma Set_access_logs (d : ResourceData) (accessLogMap : gmap string PrimValue) :
  objectConforms accessLogsResource accessLogMap = true →
  Set_ d "access_logs" (VSlice [EObject accessLogMap]) =
    (mkResourceData (rd_config d)
       (<["access_logs" := VSlice [EObject accessLogMap]]> (rd_state d)) (rd_id d), None).
Proof.
  intros C. apply (Set_accepted _ _ (TypeList (ElemResource accessLogsResource))).
  - vm_compute. reflexivity.
  - simpl. by rewrite C.
Qed.

(** Once the attributes are fetched, the only failure left is the
    timeout that does not parse. *)
Lemma setAttributes_loop (d : ResourceData) (attrs : list Attribute) :
  setAttributes d attrs =
  match attributesLoop attrs d accessLogMap0 with
  | (d', _, Some err) => (d', Some err)
  | (d', accessLogMap, None) =>
      (mkResourceData (rd_config d')
         (<["access_logs" := VSlice [EObject accessLogMap]]> (rd_state d')) (rd_id d'),
       None)
  end.
Proof.
  unfold setAttributes.
  pose proof (attributesLoop_log_conforms attrs d accessLogMap0) as C.
  destruct (attributesLoop attrs d accessLogMap0) as [[d' m] [err|]]; [done|].
  rewrite Set_access_logs; [done|]. apply C. by vm_compute.
Qed.

Section Projection.
Context {Conn : Type} `{ELBV2API Conn} `{Helpers}.

Lemma read_resolved (d : ResourceData) (meta : AWSClient Conn)
    (lb : LoadBalancer) (conn : Conn) :
  candidates d meta = (Ok [lb], conn) →
  dataSourceAwsLbRead d meta = project d (IgnoreTagsConfig meta) conn lb.
Proof. intros E. unfold dataSourceAwsLbRead. by rewrite E. Qed.

Lemma read_reaches_attributes (d : ResourceData) (meta : AWSClient Conn)
    (d2 : ResourceData) (conn3 : Conn) (attrs : list Attribute) :
  reachesAttributes d meta d2 conn3 attrs →
  dataSourceAwsLbRead d meta =
    ((setAttributes d2 attrs).1, conn3, (setAttributes d2 attrs).2).
Proof.
  intros (lb & conn & d1 & conn2 & C & F & T & A).
  rewrite (read_resolved _ _ _ _ C). unfold project, readAttributes.
  rewrite F, T, A. simpl. by destruct (setAttributes d2 attrs).
Qed.

End Projection.

(** ** The attributes *)

Lemma attributesLoop_idle (a : Attribute) (rest : list Attribute)
    (d : ResourceData) (accessLogMap : gmap string PrimValue) :
  StringValue (Key a) = "idle_timeout.timeout_seconds" →
  attributesLoop (a :: rest) d accessLogMap =
  match Atoi (StringValue (Value a)) with
  | Err err => (d, accessLogMap, Some (wrapError "error parsing ALB timeout: " err))
  | Ok timeout =>
      attributesLoop rest (Set_ignored d "idle_timeout" (VInt timeout)) accessLogMap
  end.
Proof. intros E. cbn [attributesLoop]. rewrite E. reflexivity. Qed.

Lemma fieldOf_idle (key : string) :
  fieldOf key = Some "idle_timeout" → key = "idle_timeout.timeout_seconds".
Proof.
  unfold fieldOf.
  repeat match goal with
  | |- context [if String.eqb key ?lit then _ else _] =>
      destruct (String.eqb_spec key lit)
  end; congruence.
Qed.

Lemma no_idle_parses (attrs : list Attribute) :
  Forall (λ a, StringValue (Key a) ≠ "idle_timeout.timeout_seconds") attrs →
  Forall parses attrs
  ∧ Forall (λ a, fieldOf (StringValue (Key a)) ≠ Some "idle_timeout") attrs.
Proof.
  intros F. split; eapply Forall_impl; try exact F; simpl.
  - intros a N E. done.
  - intros a N E. by apply fieldOf_idle in E.
Qed.

Section Attributes.
Context {Conn : Type} `{ELBV2API Conn} `{Helpers}.

(** C8. When the read reaches the attributes and meets the idle
    timeout's key (the attributes before it not stopping the loop): a
    value that [strconv.Atoi] parses is written to [idle_timeout] as
    that integer, and the read succeeds with it if the key does not
    come again; a value that does not parse ends the read with the
    error of line 275, which wraps the parse error. ["60"] parses to
    [60]; ["abc"] does not parse. *)
Theorem idle_timeout_attribute (d : ResourceData) (meta : AWSClient Conn)
    (d2 : ResourceData) (conn3 : Conn) (pre rest : list Attribute) (attr : Attribute) :
  reachesAttributes d meta d2 conn3 (pre ++ attr :: rest) →
  StringValue (Key attr) = "idle_timeout.timeout_seconds" →
  Forall parses pre →
  (∀ timeout,
     Atoi (StringValue (Value attr)) = Ok timeout →
     Forall (λ a, StringValue (Key a) ≠ "idle_timeout.timeout_seconds") rest →
     ∃ d', dataSourceAwsLbRead d meta = (d', conn3, None)
           ∧ rd_state d' !! "idle_timeout" = Some (VInt timeout))
  ∧ (∀ err,
     Atoi (StringValue (Value attr)) = Err err →
     ∃ d', dataSourceAwsLbRead d meta =
             (d', conn3, Some (wrapError "error parsing ALB timeout: " err)))
  ∧ Atoi "60" = Ok 60%Z
  ∧ Atoi "abc" = Err (numError "Atoi" "abc" ErrSyntax).
Proof.
  intros R K P. rewrite (read_reaches_attributes _ _ _ _ _ R).
  rewrite setAttributes_loop, attributesLoop_app.
  pose proof (attributesLoop_completes pre P d2 accessLogMap0) as C.
  destruct (attributesLoop pre d2 accessLogMap0) as [[d1 m1] e1].
  simpl in C. subst e1. rewrite (attributesLoop_idle _ _ _ _ K).
  split; [|split; [|split; reflexivity]].
  - intros timeout A F. rewrite A.
    destruct (no_idle_parses rest F) as [Prest Krest].
    pose proof (attributesLoop_completes rest Prest
                  (Set_ignored d1 "idle_timeout" (VInt timeout)) m1) as C'.
    pose proof (attributesLoop_keeps "idle_timeout" rest Krest
                  (Set_ignored d1 "idle_timeout" (VInt timeout)) m1) as S.
    destruct (attributesLoop rest _ m1) as [[d' m'] e'].
    simpl in C', S. subst e'. eexists. split; [reflexivity|]. simpl.
    rewrite lookup_insert_ne by done. rewrite S.
    by apply (Set_ignored_state_eq _ _ (SPrim TypeInt)).
  - intros err A. rewrite A. eexists. reflexivity.
Qed.

(** C9. When the read reaches the attributes, none of which has an
    access-log key (and none of which stops the loop), the read succeeds
    and [access_logs] is a list of one record, which holds [enabled]
    false, an empty [bucket] and an empty [prefix], and nothing else. *)
Theorem default_access_logs (d : ResourceData) (meta : AWSClient Conn)
    (d2 : ResourceData) (conn3 : Conn) (attrs : list Attribute) :
  reachesAttributes d meta d2 conn3 attrs →
  Forall notAccessLog attrs →
  Forall parses attrs →
  ∃ d' record,
    dataSourceAwsLbRead d meta = (d', conn3, None)
    ∧ rd_state d' !! "access_logs" = Some (VSlice [EObject record])
    ∧ record !! "enabled" = Some (PBool false)
    ∧ record !! "bucket" = Some (PString "")
    ∧ record !! "prefix" = Some (PString "")
    ∧ size record = 3.
Proof.
  intros R N P. rewrite (read_reaches_attributes _ _ _ _ _ R).
  rewrite setAttributes_loop.
  pose proof (attributesLoop_completes attrs P d2 accessLogMap0) as C.
  pose proof (attributesLoop_log_kept attrs N d2 accessLogMap0) as L.
  destruct (attributesLoop attrs d2 accessLogMap0) as [[d' m'] e'].
  simpl in C, L. subst e' m'.
  eexists. exists accessLogMap0. split; [reflexivity|]. simpl.
  split; [apply lookup_insert_eq|]. by vm_compute.
Qed.

End Attributes.

Lemma one_lb_reachesAttributes (attrs : list Attribute) :
  reachesAttributes (configured ∅) (client (one_lb (Ok env_prod) attrs))
    tagged_a (mkScript [] [] []) attrs.
Proof.
  exists lb_a, (mkScript [] [Ok env_prod] [Ok (mkDescribeLoadBalancerAttributesOutput attrs)]),
    resolved_a, (mkScript [] [] [Ok (mkDescribeLoadBalancerAttributesOutput attrs)]).
  split; [|split; [|split]]; vm_compute; reflexivity.
Defined.

Lemma idle_timeout_attribute_witness :
  (∃ d', dataSourceAwsLbRead (configured ∅) (client (one_lb (Ok env_prod) timeout_60)) =
           (d', mkScript [] [] [], None)
         ∧ rd_state d' !! "idle_timeout" = Some (VInt 60))
  ∧ (∃ d', dataSourceAwsLbRead (configured ∅) (client (one_lb (Ok env_prod) timeout_abc)) =
           (d', mkScript [] [] [],
            Some (wrapError "error parsing ALB timeout: "
                    (numError "Atoi" "abc" ErrSyntax)))).
Proof.
  split.
  - destruct (idle_timeout_attribute (configured ∅)
                (client (one_lb (Ok env_prod) timeout_60)) tagged_a (mkScript [] [] [])
                [attribute "routing.http2.enabled" "true"]
                [attribute "load_balancing.cross_zone.enabled" "true"]
                (attribute "idle_timeout.timeout_seconds" "60")) as (Parsed & _).
    + apply one_lb_reachesAttributes.
    + reflexivity.
    + constructor; [intros E; discriminate E|constructor].
    + apply (Parsed 60%Z); [reflexivity|].
      constructor; [intros E; discriminate E|constructor].
  - destruct (idle_timeout_attribute (configured ∅)
                (client (one_lb (Ok env_prod) timeout_abc)) tagged_a (mkScript [] [] [])
                [attribute "routing.http2.enabled" "true"]
                [attribute "load_balancing.cross_zone.enabled" "true"]
                (attribute "idle_timeout.timeout_seconds" "abc")) as (_ & Refused & _).
    + apply one_lb_reachesAttributes.
    + reflexivity.
    + constructor; [intros E; discriminate E|constructor].
    + apply (Refused (numError "Atoi" "abc" ErrSyntax)). reflexivity.
Defined.

Lemma default_access_logs_witness :
  ∃ d' record,
    dataSourceAwsLbRead (configured ∅) (client (one_lb (Ok env_prod) timeout_60)) =
      (d', mkScript [] [] [], None)
    ∧ rd_state d' !! "access_logs" = Some (VSlice [EObject record])
    ∧ record !! "enabled" = Some (PBool false)
    ∧ record !! "bucket" = Some (PString "")
    ∧ record !! "prefix" = Some (PString "")
    ∧ size record = 3.
Proof.
  apply (default_access_logs (configured ∅) (client (one_lb (Ok env_prod) timeout_60))
           tagged_a (mkScript [] [] []) timeout_60).
  - apply one_lb_reachesAttributes.
  - repeat (constructor; [repeat split; intros E; discriminate E|]). constructor.
  - constructor; [intros E; discriminate E|].
    constructor; [intros _; by exists 60%Z|].
    constructor; [intros E; discriminate E|constructor].
Defined.

(** ** What the read writes *)

Section Written.
Context {Conn : Type} `{ELBV2API Conn} `{Helpers}.

Lemma setFields_shape (d : ResourceData) (lb : LoadBalancer) :
  let subnets :=
    Set_ (setCoreFields d lb) "subnets"
      (flattenSubnetsFromAvailabilityZones (AvailabilityZones lb)) in
  (setFields d lb).1 = subnets.1
  ∨ (setFields d lb).1 =
      (Set_ subnets.1 "subnet_mapping"
         (flattenSubnetMappingsFromAvailabilityZones (AvailabilityZones lb))).1.
Proof.
  unfold setFields.
  destruct (Set_ (setCoreFields d lb) "subnets" _) as [dA [eA|]]; simpl; [by left|].
  right. by destruct (Set_ dA "subnet_mapping" _) as [dB [eB|]].
Qed.

Lemma setFields_id (d : ResourceData) (lb : LoadBalancer) :
  rd_id (setFields d lb).1 = StringValue (LoadBalancerArn lb).
Proof.
  assert (C : rd_id (setCoreFields d lb) = StringValue (LoadBalancerArn lb)).
  { unfold setCoreFields. by rewrite !Set_ignored_id. }
  destruct (setFields_shape d lb) as [-> | ->];
    by rewrite ?(proj1 (Set_id _ _ _)).
Qed.

Lemma setFields_never_cross_zone (d : ResourceData) (lb : LoadBalancer) :
  rd_state (setFields d lb).1 !! "enable_cross_zone_load_balancing" =
  rd_state d !! "enable_cross_zone_load_balancing".
Proof.
  assert (C : rd_state (setCoreFields d lb) !! "enable_cross_zone_load_balancing" =
              rd_state d !! "enable_cross_zone_load_balancing").
  { unfold setCoreFields. repeat (rewrite Set_ignored_state_ne by done). reflexivity. }
  destruct (setFields_shape d lb) as [-> | ->];
    by rewrite ?Set_state_ne.
Qed.

Lemma setTags_shape (d : ResourceData) (ignoreTagsConfig : IgnoreConfigT) (conn : Conn) :
  (setTags d ignoreTagsConfig conn).1.1 = d
  ∨ ∃ v, (setTags d ignoreTagsConfig conn).1.1 = (Set_ d "tags" v).1.
Proof.
  unfold setTags. destruct (Elbv2ListTags conn (Id d)) as [[tags|err] conn']; [|by left].
  right. exists (VMap (Map (IgnoreConfig ignoreTagsConfig (IgnoreAws tags)))).
  by destruct (Set_ d "tags" _) as [dA [eA|]].
Qed.

Lemma setAttributes_id (d : ResourceData) (attrs : list Attribute) :
  rd_id (setAttributes d attrs).1 = rd_id d.
Proof.
  rewrite setAttributes_loop.
  pose proof (attributesLoop_id attrs d accessLogMap0) as I.
  by destruct (attributesLoop attrs d accessLogMap0) as [[d' m'] [e'|]].
Qed.

Lemma setAttributes_never_cross_zone (d : ResourceData) (attrs : list Attribute) :
  rd_state (setAttributes d attrs).1 !! "enable_cross_zone_load_balancing" =
  rd_state d !! "enable_cross_zone_load_balancing".
Proof.
  rewrite setAttributes_loop.
  pose proof (attributesLoop_never_cross_zone attrs d accessLogMap0) as I.
  destruct (attributesLoop attrs d accessLogMap0) as [[d' m'] [e'|]]; simpl in *; [done|].
  by rewrite lookup_insert_ne.
Qed.

Lemma readAttributes_shape (d : ResourceData) (conn : Conn) :
  (readAttributes d conn).1.1 = d
  ∨ ∃ attrs, (readAttributes d conn).1.1 = (setAttributes d attrs).1.
Proof.
  unfold readAttributes.
  destruct (DescribeLoadBalancerAttributes conn _) as [[resp|err] conn']; [|by left].
  right. exists (Attributes resp). by destruct (setAttributes d _).
Qed.

Lemma project_shape (d : ResourceData) (ignoreTagsConfig : IgnoreConfigT)
    (conn : Conn) (lb : LoadBalancer) :
  ∃ conn1 conn2,
    (project d ignoreTagsConfig conn lb).1.1 = (setFields d lb).1
    ∨ (project d ignoreTagsConfig conn lb).1.1 =
        (setTags (setFields d lb).1 ignoreTagsConfig conn1).1.1
    ∨ (project d ignoreTagsConfig conn lb).1.1 =
        (readAttributes (setTags (setFields d lb).1 ignoreTagsConfig conn1).1.1 conn2).1.1.
Proof.
  unfold project. destruct (setFields d lb) as [d1 [e1|]]; simpl.
  { exists conn, conn. by left. }
  exists conn. destruct (setTags d1 ignoreTagsConfig conn) as [[d2 conn2] [e2|]] eqn:T; simpl.
  { exists conn. right. by left. }
  exists conn2. right. by right.
Qed.

Lemma project_id (d : ResourceData) (ignoreTagsConfig : IgnoreConfigT)
    (conn : Conn) (lb : LoadBalancer) :
  rd_id (project d ignoreTagsConfig conn lb).1.1 = StringValue (LoadBalancerArn lb).
Proof.
  assert (T : ∀ d' c, rd_id (setTags d' ignoreTagsConfig c).1.1 = rd_id d').
  { intros d' c. destruct (setTags_shape d' ignoreTagsConfig c) as [-> | [v ->]];
      [done|apply Set_id]. }
  assert (A : ∀ d' c, rd_id (readAttributes d' c).1.1 = rd_id d').
  { intros d' c. destruct (readAttributes_shape d' c) as [-> | [attrs ->]];
      [done|apply setAttributes_id]. }
  destruct (project_shape d ignoreTagsConfig conn lb) as (c1 & c2 & [-> | [-> | ->]]);
    rewrite ?A, ?T; apply setFields_id.
Qed.

Lemma project_never_cross_zone (d : ResourceData) (ignoreTagsConfig : IgnoreConfigT)
    (conn : Conn) (lb : LoadBalancer) :
  rd_state (project d ignoreTagsConfig conn lb).1.1 !! "enable_cross_zone_load_balancing" =
  rd_state d !! "enable_cross_zone_load_balancing".
Proof.
  assert (T : ∀ d' c,
    rd_state (setTags d' ignoreTagsConfig c).1.1 !! "enable_cross_zone_load_balancing" =
    rd_state d' !! "enable_cross_zone_load_balancing").
  { intros d' c. destruct (setTags_shape d' ignoreTagsConfig c) as [-> | [v ->]];
      [done|by apply Set_state_ne]. }
  assert (A : ∀ d' c,
    rd_state (readAttributes d' c).1.1 !! "enable_cross_zone_load_balancing" =
    rd_state d' !! "enable_cross_zone_load_balancing").
  { intros d' c. destruct (readAttributes_shape d' c) as [-> | [attrs ->]];
      [done|apply setAttributes_never_cross_zone]. }
  destruct (project_shape d ignoreTagsConfig conn lb) as (c1 & c2 & [-> | [-> | ->]]);
    rewrite ?A, ?T; apply setFields_never_cross_zone.
Qed.

Lemma read_shape (d : ResourceData) (meta : AWSClient Conn) :
  (dataSourceAwsLbRead d meta).1.1 = d
  ∨ ∃ lb conn, candidates d meta = (Ok [lb], conn)
      ∧ dataSourceAwsLbRead d meta = project d (IgnoreTagsConfig meta) conn lb.
Proof.
  unfold dataSourceAwsLbRead.
  destruct (candidates d meta) as [[results|err] conn]; [|by left].
  destruct results as [|lb [|lb' rest]]; simpl; [by left| |by left].
  right. by exists lb, conn.
Qed.

End Written.

(** ** The flags *)

Lemma fieldOf_flag (key field : string) :
  fieldOf key = Some field →
  field ∈ ["drop_invalid_header_fields"; "enable_deletion_protection"; "enable_http2"] →
  (key = "routing.http.drop_invalid_header_fields.enabled"
     ∧ field = "drop_invalid_header_fields")
  ∨ (key = "deletion_protection.enabled" ∧ field = "enable_deletion_protection")
  ∨ (key = "routing.http2.enabled" ∧ field = "enable_http2").
Proof.
  rewrite !elem_of_cons, elem_of_nil. unfold fieldOf.
  repeat match goal with
  | |- context [if String.eqb key ?lit then _ else _] =>
      destruct (String.eqb_spec key lit)
  end; intros [= <-] M; try tauto;
  exfalso; repeat destruct M as [M|M]; done.
Qed.

Lemma attributesLoop_flag (a : Attribute) (rest : list Attribute)
    (d : ResourceData) (accessLogMap : gmap string PrimValue) (field : string) :
  fieldOf (StringValue (Key a)) = Some field →
  field ∈ ["drop_invalid_header_fields"; "enable_deletion_protection"; "enable_http2"] →
  attributesLoop (a :: rest) d accessLogMap =
    attributesLoop rest
      (Set_ignored d field (VBool (String.eqb (StringValue (Value a)) "true")))
      accessLogMap
  ∧ dataSourceAwsLb !! field = Some (SPrim TypeBool).
Proof.
  intros F M. cbn [attributesLoop].
  destruct (fieldOf_flag _ _ F M) as [[-> ->]|[[-> ->]|[-> ->]]];
    (split; [reflexivity|by vm_compute]).
Qed.

Section Flags.
Context {Conn : Type} `{ELBV2API Conn} `{Helpers}.

(** The three flags that have a field in the schema are written from
    their attributes, each true exactly when the value is ["true"]. *)
Lemma sibling_flags_written (d : ResourceData) (meta : AWSClient Conn)
    (d2 : ResourceData) (conn3 : Conn) (pre rest : list Attribute) (attr : Attribute)
    (field : string) :
  reachesAttributes d meta d2 conn3 (pre ++ attr :: rest) →
  fieldOf (StringValue (Key attr)) = Some field →
  field ∈ ["drop_invalid_header_fields"; "enable_deletion_protection"; "enable_http2"] →
  Forall parses pre → Forall parses rest →
  Forall (λ a, fieldOf (StringValue (Key a)) ≠ Some field) rest →
  ∃ d', dataSourceAwsLbRead d meta = (d', conn3, None)
        ∧ rd_state d' !! field =
            Some (VBool (String.eqb (StringValue (Value attr)) "true")).
Proof.
  intros R F M Ppre Prest Krest. rewrite (read_reaches_attributes _ _ _ _ _ R).
  rewrite setAttributes_loop, attributesLoop_app.
  pose proof (attributesLoop_completes pre Ppre d2 accessLogMap0) as C.
  destruct (attributesLoop pre d2 accessLogMap0) as [[d1 m1] e1].
  simpl in C. subst e1.
  destruct (attributesLoop_flag attr rest d1 m1 field F M) as [-> S].
  set (flag := VBool (String.eqb (StringValue (Value attr)) "true")).
  pose proof (attributesLoop_completes rest Prest (Set_ignored d1 field flag) m1) as C'.
  pose proof (attributesLoop_keeps field rest Krest (Set_ignored d1 field flag) m1) as K.
  destruct (attributesLoop rest _ m1) as [[d' m'] e'].
  simpl in C', K. subst e'. eexists. split; [reflexivity|]. simpl.
  rewrite lookup_insert_ne.
  - rewrite K. by apply (Set_ignored_state_eq _ _ (SPrim TypeBool)).
  - intros <-. revert M. rewrite !elem_of_cons, elem_of_nil. intros M.
    repeat destruct M as [M|M]; done.
Qed.

(** C5 fails for the cross-zone flag. The schema of the data source has
    no field [enable_cross_zone_load_balancing]: [d.Set] refuses the
    key and writes nothing, the loop drops that error, and however the
    read ends the record holds for that key what it held before. With
    the attribute [load_balancing.cross_zone.enabled = "true"] the read
    succeeds and the record has no cross-zone flag. *)
Theorem cross_zone_flag_never_written (d : ResourceData) (meta : AWSClient Conn)
    (value : FieldValue) :
  Set_ d "enable_cross_zone_load_balancing" value =
    (d, Some (setError "enable_cross_zone_load_balancing" InvalidAddress))
  ∧ rd_state (dataSourceAwsLbRead d meta).1.1 !! "enable_cross_zone_load_balancing" =
    rd_state d !! "enable_cross_zone_load_balancing"
  ∧ (dataSourceAwsLbRead (configured ∅)
       (client (one_lb (Ok env_prod) cross_zone_true))).2 = None
  ∧ rd_state (dataSourceAwsLbRead (configured ∅)
       (client (one_lb (Ok env_prod) cross_zone_true))).1.1
      !! "enable_cross_zone_load_balancing" = None.
Proof.
  split; [apply Set_refused, no_cross_zone_field|].
  split; [|by vm_compute].
  destruct (read_shape d meta) as [-> | (lb & conn & _ & ->)]; [done|].
  apply project_never_cross_zone.
Qed.

End Flags.

(** ** The tags of the resolved load balancer *)

Section Outcome.
Context {Conn : Type} `{ELBV2API Conn} `{Helpers}.

(** C10. After the resolution the tags are read again for the record's
    identifier, which is the resolved load balancer's; whatever error
    that request returns, the not-found code included, ends the read
    with the error of line 244, which wraps it. *)
Theorem final_tags_error (d : ResourceData) (meta : AWSClient Conn)
    (lb : LoadBalancer) (conn conn2 : Conn) (d1 : ResourceData) (err : error) :
  candidates d meta = (Ok [lb], conn) →
  setFields d lb = (d1, None) →
  Elbv2ListTags conn (Id d1) = (Err err, conn2) →
  Id d1 = StringValue (LoadBalancerArn lb)
  ∧ dataSourceAwsLbRead d meta =
      (d1, conn2,
       Some (wrapError ("error listing tags for (" +:+
                        StringValue (LoadBalancerArn lb) +:+ "): ") err)).
Proof.
  intros C F T.
  assert (I : Id d1 = StringValue (LoadBalancerArn lb)).
  { pose proof (setFields_id d lb) as I. by rewrite F in I. }
  split; [exact I|].
  rewrite (read_resolved _ _ _ _ C). unfold project, setTags.
  rewrite F, T. by rewrite I.
Qed.

(** ** What a failed read leaves behind *)

(** C4, as amended. A read that fails in the list request, in a tag
    request of the filtering phase or at the cardinality check leaves
    the record as it was before the call. Once one load balancer is
    resolved the record's identifier is that load balancer's, however
    the read ends: a later failure does not undo what was written. *)
Theorem failed_resolution_leaves_record (d : ResourceData) (meta : AWSClient Conn) :
  (∀ err conn,
     candidates d meta = (Err err, conn) →
     dataSourceAwsLbRead d meta = (d, conn, Some err))
  ∧ (∀ results conn,
     candidates d meta = (Ok results, conn) → length results ≠ 1 →
     dataSourceAwsLbRead d meta = (d, conn, Some (searchError (length results))))
  ∧ (∀ lb conn,
     candidates d meta = (Ok [lb], conn) →
     rd_id (dataSourceAwsLbRead d meta).1.1 = StringValue (LoadBalancerArn lb)).
Proof.
  unfold dataSourceAwsLbRead. repeat split.
  - intros err conn C. by rewrite C.
  - intros results conn C N. rewrite C.
    by destruct (Nat.eqb_spec (length results) 1).
  - intros lb conn C. rewrite C. simpl. apply project_id.
Qed.

End Outcome.

Lemma final_tags_error_witness :
  dataSourceAwsLbRead wants_env_prod (client gone_at_last) =
    ((setFields wants_env_prod lb_b).1, mkScript [] [] [],
     Some (wrapError "error listing tags for (arn:b): " notFound)).
Proof.
  apply (final_tags_error wants_env_prod (client gone_at_last) lb_b
           (mkScript [] [Err notFound] []) (mkScript [] [] [])
           (setFields wants_env_prod lb_b).1 notFound).
  - vm_compute. reflexivity.
  - vm_compute. reflexivity.
  - vm_compute. reflexivity.
Defined.

Lemma failed_resolution_leaves_record_witness :
  dataSourceAwsLbRead wants_env_prod (client staging_then_denied) =
    (wants_env_prod, mkScript [] [] [],
     Some (wrapError "error listing tags for (arn:b): " accessDenied))
  ∧ dataSourceAwsLbRead (configured ∅) (client three_on_one_page) =
    (configured ∅, mkScript [] [] [], Some (searchError 3))
  ∧ rd_id (dataSourceAwsLbRead wants_env_prod (client gone_at_last)).1.1 = "arn:b".
Proof.
  split; [|split].
  - apply (proj1 (failed_resolution_leaves_record wants_env_prod
                    (client staging_then_denied))).
    vm_compute. reflexivity.
  - apply (proj1 (proj2 (failed_resolution_leaves_record (configured ∅)
                           (client three_on_one_page))) [lb_a; lb_b; lb_c]).
    + vm_compute. reflexivity.
    + simpl. lia.
  - apply (proj2 (proj2 (failed_resolution_leaves_record wants_env_prod
                           (client gone_at_last))) lb_b (mkScript [] [Err notFound] [])).
    vm_compute. reflexivity.
Defined.

(** C4, as the claim words it, fails: a read that stops at a timeout
    that does not parse has already set the identifier and written the
    fields and the tags of the resolved load balancer. *)
Lemma failed_read_changes_record :
  ¬ failedReadLeavesRecord (configured ∅) (client (one_lb (Ok env_prod) timeout_abc)).
Proof.
  intros Unchanged.
  assert (R : dataSourceAwsLbRead (configured ∅)
                (client (one_lb (Ok env_prod) timeout_abc)) =
              ((dataSourceAwsLbRead (configured ∅)
                  (client (one_lb (Ok env_prod) timeout_abc))).1.1,
               mkScript [] [] [],
               Some (wrapError "error parsing ALB timeout: "
                       (numError "Atoi" "abc" ErrSyntax))))
    by (vm_compute; reflexivity).
  apply Unchanged in R. apply (f_equal rd_id) in R. vm_compute in R. discriminate R.
Qed.

(** * Further properties of the read operation *)

(** ** Listing *)

Section Listing.
Context {Conn : Type} `{ELBV2API Conn} `{Helpers}.

(** X1. A list request that fails on some turn ends the read with the
    error of line 185, which wraps it: the pages delivered before are
    discarded, the record is left as it was, and the connection is the
    one the list request left (no tag or attribute request follows). *)
Theorem list_error_aborts (d : ResourceData) (meta : AWSClient Conn)
    (pre rest : list PageEvent) (err : error) (conn' : Conn) :
  loadBalancerPages (elbv2conn meta) (buildInput d) = (pre ++ page_err err :: rest, conn') →
  Forall notLast pre →
  dataSourceAwsLbRead d meta = (d, conn', Some (wrapError "error retrieving LB: " err)).
Proof.
  intros E F. unfold dataSourceAwsLbRead, candidates.
  rewrite (listLoadBalancers_events _ _ _ _ E).
  by rewrite (EachPage_notLast pre _ [] F).
Qed.

(** X2. When the paginator runs out of pages and none was flagged as
    the last, the list phase succeeds with the entities of all the
    pages, in order; nil pages contribute nothing. *)
Theorem paging_runs_out (conn conn' : Conn) (input : DescribeLoadBalancersInput)
    (events : list PageEvent) :
  loadBalancerPages conn input = (events, conn') →
  Forall notLast events →
  listLoadBalancers conn input = (Ok (concat (map entities events)), conn').
Proof.
  intros E F. rewrite (listLoadBalancers_events _ _ _ _ E).
  pose proof (EachPage_notLast events [] [] F) as P.
  rewrite app_nil_r in P. by rewrite P.
Qed.

(** X3. An empty listing fails with the count 0, whatever the tag
    predicate, and no tag request is made for it. *)
Theorem empty_listing_fails (d : ResourceData) (meta : AWSClient Conn) (conn : Conn) :
  listLoadBalancers (elbv2conn meta) (buildInput d) = (Ok [], conn) →
  dataSourceAwsLbRead d meta =
    (d, conn,
     Some (errorString "Search returned 0 results, please revise so only one is returned")).
Proof.
  intros L. unfold dataSourceAwsLbRead. rewrite (candidates_listed _ _ _ _ L).
  unfold filterPhase. by destruct (0 <? size (tagsToMatch_of d meta))%nat.
Qed.

(** X4. A tag predicate that the ignore policy empties filters
    nothing: the listed load balancers go to the cardinality check as
    they are, on the connection the list request left. *)
Theorem emptied_predicate_filters_nothing (d : ResourceData) (meta : AWSClient Conn)
    (results : list LoadBalancer) (conn : Conn) :
  IgnoreConfig (IgnoreTagsConfig meta) (IgnoreAws (Get_map d "tags")) = ∅ →
  listLoadBalancers (elbv2conn meta) (buildInput d) = (Ok results, conn) →
  candidates d meta = (Ok results, conn).
Proof.
  intros E L. rewrite (candidates_listed _ _ _ _ L).
  unfold filterPhase, tagsToMatch_of, New. by rewrite E.
Qed.

Lemma filterByTags_sublist (tagsToMatch : KeyValueTags) (results : list LoadBalancer) :
  ∀ (conn conn' : Conn) (survivors : list LoadBalancer),
    filterByTags conn tagsToMatch results [] = (Ok survivors, conn') →
    sublist survivors results.
Proof.
  induction results as [|lb rest IH]; intros conn conn' survivors; simpl.
  - intros [= <- _]. constructor.
  - destruct (Elbv2ListTags conn _) as [[tags|err] conn1].
    + destruct (ContainsAll tags tagsToMatch); simpl.
      * rewrite filterByTags_acc.
        destruct (filterByTags conn1 tagsToMatch rest []) as [[s|e] c] eqn:R;
          simpl; [|done].
        intros [= <- _]. apply sublist_skip. by eapply IH.
      * intros R. apply sublist_cons. by eapply IH.
    + destruct (ErrCodeEquals err _); [|done].
      intros R. apply sublist_cons. by eapply IH.
Qed.

(** X5. The tag filter only removes: the survivors are a subsequence of
    the listed load balancers, in the order of the listing, and so are
    no more than were listed. *)
Theorem survivors_sublist (d : ResourceData) (meta : AWSClient Conn)
    (results survivors : list LoadBalancer) (conn conn' : Conn) :
  listLoadBalancers (elbv2conn meta) (buildInput d) = (Ok results, conn) →
  candidates d meta = (Ok survivors, conn') →
  sublist survivors results ∧ length survivors ≤ length results.
Proof.
  intros L C. rewrite (candidates_listed _ _ _ _ L) in C.
  assert (S : sublist survivors results).
  { unfold filterPhase in C. destruct (0 <? size (tagsToMatch_of d meta))%nat.
    - by eapply filterByTags_sublist.
    - by injection C as <- _. }
  split; [exact S|]. by apply sublist_length.
Qed.

End Listing.

Lemma list_error_aborts_witness :
  dataSourceAwsLbRead (configured ∅) (client (mkScript pages_then_error [] [])) =
    (configured ∅, mkScript [] [] [],
     Some (wrapError "error retrieving LB: " (otherError "RequestError"))).
Proof.
  apply (list_error_aborts (configured ∅) (client (mkScript pages_then_error [] []))
           [page_ok (page_of [lb_a]) false; page_ok (page_of [lb_b]) false] []).
  - reflexivity.
  - repeat constructor.
Defined.

Lemma paging_runs_out_witness :
  listLoadBalancers (mkScript pages_run_out [] []) (mkDescribeLoadBalancersInput [] []) =
    (Ok [lb_a; lb_b; lb_c], mkScript [] [] []).
Proof.
  apply (paging_runs_out (mkScript pages_run_out [] []) (mkScript [] [] [])
           (mkDescribeLoadBalancersInput [] []) pages_run_out).
  - reflexivity.
  - repeat constructor.
Defined.

Lemma empty_listing_fails_witness :
  dataSourceAwsLbRead wants_env_prod
    (client (mkScript [page_ok (page_of []) true] [Ok env_prod] [])) =
    (wants_env_prod, mkScript [] [Ok env_prod] [],
     Some (errorString "Search returned 0 results, please revise so only one is returned")).
Proof.
  apply (empty_listing_fails wants_env_prod
           (client (mkScript [page_ok (page_of []) true] [Ok env_prod] []))).
  vm_compute. reflexivity.
Defined.

Lemma emptied_predicate_filters_nothing_witness :
  candidates wants_aws_key (client three_on_one_page) =
    (Ok [lb_a; lb_b; lb_c], mkScript [] [] []).
Proof.
  apply (emptied_predicate_filters_nothing wants_aws_key (client three_on_one_page)).
  - vm_compute. reflexivity.
  - vm_compute. reflexivity.
Defined.

Lemma survivors_sublist_witness :
  sublist [lb_b] [lb_a; lb_b; lb_c] ∧ length [lb_b] ≤ length [lb_a; lb_b; lb_c].
Proof.
  apply (survivors_sublist wants_env_prod (client staging_prod_gone)
           [lb_a; lb_b; lb_c] [lb_b]
           (mkScript [] (script_tags staging_prod_gone)
              (script_attributes staging_prod_gone))
           (mkScript [] [Ok env_prod_team_x]
              [one_attribute "idle_timeout.timeout_seconds" "60"])).
  - vm_compute. reflexivity.
  - vm_compute. reflexivity.
Defined.

(** ** What the projection writes and keeps *)

Lemma fieldOf_range (key field : string) :
  fieldOf key = Some field →
  field ∈ attributeFields ∨ field = "enable_cross_zone_load_balancing".
Proof.
  unfold fieldOf, attributeFields. rewrite !elem_of_cons.
  repeat match goal with
  | |- context [if String.eqb key ?lit then _ else _] =>
      destruct (String.eqb_spec key lit)
  end; intros [= <-]; tauto.
Qed.

Lemma not_attribute_field (field : string) (attrs : list Attribute) :
  field ∉ attributeFields → field ≠ "enable_cross_zone_load_balancing" →
  Forall (λ a, fieldOf (StringValue (Key a)) ≠ Some field) attrs.
Proof.
  intros N1 N2. apply Forall_forall. intros a _ F.
  by destruct (fieldOf_range _ _ F).
Qed.

Section Kept.
Context {Conn : Type} `{ELBV2API Conn} `{Helpers}.

Lemma setFields_keeps (d : ResourceData) (lb : LoadBalancer) (key : string) :
  key ≠ "subnets" → key ≠ "subnet_mapping" →
  rd_state (setFields d lb).1 !! key = rd_state (setCoreFields d lb) !! key.
Proof.
  intros N1 N2.
  destruct (setFields_shape d lb) as [-> | ->]; by rewrite ?Set_state_ne.
Qed.

Lemma setTags_keeps (d : ResourceData) (ignoreTagsConfig : IgnoreConfigT)
    (conn : Conn) (key : string) :
  key ≠ "tags" →
  rd_state (setTags d ignoreTagsConfig conn).1.1 !! key = rd_state d !! key.
Proof.
  intros N. destruct (setTags_shape d ignoreTagsConfig conn) as [-> | [v ->]];
    [done|by apply Set_state_ne].
Qed.

Lemma setAttributes_keeps (d : ResourceData) (attrs : list Attribute) (key : string) :
  key ≠ "access_logs" →
  Forall (λ a, fieldOf (StringValue (Key a)) ≠ Some key) attrs →
  rd_state (setAttributes d attrs).1 !! key = rd_state d !! key.
Proof.
  intros N F. rewrite setAttributes_loop.
  pose proof (attributesLoop_keeps key attrs F d accessLogMap0) as K.
  destruct (attributesLoop attrs d accessLogMap0) as [[d' m'] [e'|]]; simpl in *; [done|].
  by rewrite lookup_insert_ne.
Qed.

Lemma readAttributes_keeps (d : ResourceData) (conn : Conn) (key : string) :
  key ≠ "access_logs" → key ∉ attributeFields →
  key ≠ "enable_cross_zone_load_balancing" →
  rd_state (readAttributes d conn).1.1 !! key = rd_state d !! key.
Proof.
  intros N1 N2 N3. destruct (readAttributes_shape d conn) as [-> | [attrs ->]]; [done|].
  apply setAttributes_keeps; [done|]. by apply not_attribute_field.
Qed.

(** Past the fields of lines 219-231, nothing the read does touches a
    key other than those of the later [d.Set] calls. *)
Lemma project_keeps (d : ResourceData) (ignoreTagsConfig : IgnoreConfigT)
    (conn : Conn) (lb : LoadBalancer) (key : string) :
  key ∉ ["subnets"; "subnet_mapping"; "tags"; "access_logs"] →
  key ∉ attributeFields → key ≠ "enable_cross_zone_load_balancing" →
  rd_state (project d ignoreTagsConfig conn lb).1.1 !! key =
  rd_state (setCoreFields d lb) !! key.
Proof.
  rewrite !not_elem_of_cons. intros (N1 & N2 & N3 & N4 & _) A C.
  destruct (project_shape d ignoreTagsConfig conn lb) as (c1 & c2 & [-> | [-> | ->]]);
    rewrite ?readAttributes_keeps, ?setTags_keeps by done;
    by apply setFields_keeps.
Qed.

End Kept.

Ltac not_in_list :=
  repeat (apply not_elem_of_cons; split; [done|]); apply not_elem_of_nil.

Lemma conforms_string_ptr (p : option string) :
  conforms (SPrim TypeString) (VStringPtr p) = true.
Proof. by destruct p. Qed.

Section Fields.
Context {Conn : Type} `{ELBV2API Conn} `{Helpers}.

Lemma setCoreFields_copies (d : ResourceData) (lb : LoadBalancer)
    (key : string) (field : LoadBalancer → option string) :
  (key, field) ∈ copiedFields →
  rd_state (setCoreFields d lb) !! key = Some (VStringPtr (field lb))
  ∧ (key ∉ ["subnets"; "subnet_mapping"; "tags"; "access_logs"])
  ∧ (key ∉ attributeFields) ∧ key ≠ "enable_cross_zone_load_balancing".
Proof.
  unfold copiedFields. intros M. rewrite !elem_of_cons, elem_of_nil in M.
  repeat destruct M as [M|M]; try done; injection M as -> ->.
  all: split; [|split; [not_in_list|split; [not_in_list|done]]].
  all: unfold setCoreFields; repeat (rewrite Set_ignored_state_ne by done).
  all: apply (Set_ignored_state_eq _ _ (SPrim TypeString)); try done.
  all: apply conforms_string_ptr.
Qed.

(** X6. Once one load balancer is resolved, the record holds its
    identifier, name, VPC, hosted zone, DNS name, address type, type and
    address pool as they are in the load balancer (a nil string as the
    nil value), however the read ends afterwards. *)
Theorem core_fields_copied (d : ResourceData) (meta : AWSClient Conn)
    (lb : LoadBalancer) (conn : Conn)
    (key : string) (field : LoadBalancer → option string) :
  candidates d meta = (Ok [lb], conn) →
  (key, field) ∈ copiedFields →
  rd_state (dataSourceAwsLbRead d meta).1.1 !! key = Some (VStringPtr (field lb)).
Proof.
  intros C M. rewrite (read_resolved _ _ _ _ C).
  destruct (setCoreFields_copies d lb key field M) as (S & N1 & N2 & N3).
  by rewrite project_keeps.
Qed.

(** X7. Once one load balancer is resolved, [internal] is written as a
    boolean that is true exactly when the scheme is the string
    ["internal"]; a nil scheme gives false. *)
Theorem internal_flag (d : ResourceData) (meta : AWSClient Conn)
    (lb : LoadBalancer) (conn : Conn) :
  candidates d meta = (Ok [lb], conn) →
  ∃ b, rd_state (dataSourceAwsLbRead d meta).1.1 !! "internal" = Some (VBool b)
       ∧ (b = true ↔ Scheme lb = Some "internal").
Proof.
  intros C. rewrite (read_resolved _ _ _ _ C).
  rewrite project_keeps by (done || not_in_list).
  eexists. split.
  - unfold setCoreFields. repeat (rewrite Set_ignored_state_ne by done).
    by apply (Set_ignored_state_eq _ _ (SPrim TypeBool)).
  - destruct (Scheme lb) as [s|]; simpl; [|done].
    rewrite String.eqb_eq. split; congruence.
Qed.

(** X8. The tags the record exposes are those of the second tag
    request, made for the resolved identifier, after the ignore policy;
    they are not compared with the predicate again. *)
Theorem exposed_tags_are_reread (d : ResourceData) (meta : AWSClient Conn)
    (lb : LoadBalancer) (conn conn2 : Conn) (d1 : ResourceData) (tags : KeyValueTags) :
  candidates d meta = (Ok [lb], conn) →
  setFields d lb = (d1, None) →
  Elbv2ListTags conn (StringValue (LoadBalancerArn lb)) = (Ok tags, conn2) →
  rd_state (dataSourceAwsLbRead d meta).1.1 !! "tags" =
    Some (VMap (Map (IgnoreConfig (IgnoreTagsConfig meta) (IgnoreAws tags)))).
Proof.
  intros C F T. rewrite (read_resolved _ _ _ _ C).
  assert (I : Id d1 = StringValue (LoadBalancerArn lb)).
  { pose proof (setFields_id d lb) as I. by rewrite F in I. }
  unfold project, setTags. rewrite F, I, T.
  rewrite (Set_accepted d1 "tags" (TypeMap TypeString)) by done.
  rewrite readAttributes_keeps by (done || not_in_list).
  simpl. apply lookup_insert_eq.
Qed.

(** X9. The attribute request is made for the resolved identifier; an
    error it returns ends the read with the error of line 255, which
    wraps it, the fields and the tags already written. *)
Theorem attributes_error_aborts (d : ResourceData) (meta : AWSClient Conn)
    (lb : LoadBalancer) (conn conn2 conn3 : Conn) (d1 d2 : ResourceData) (err : error) :
  candidates d meta = (Ok [lb], conn) →
  setFields d lb = (d1, None) →
  setTags d1 (IgnoreTagsConfig meta) conn = (d2, conn2, None) →
  DescribeLoadBalancerAttributes conn2 (Some (StringValue (LoadBalancerArn lb))) =
    (Err err, conn3) →
  dataSourceAwsLbRead d meta =
    (d2, conn3, Some (wrapError "error retrieving LB Attributes: " err)).
Proof.
  intros C F T A. rewrite (read_resolved _ _ _ _ C).
  assert (I : Id d2 = StringValue (LoadBalancerArn lb)).
  { pose proof (setFields_id d lb) as I1. rewrite F in I1. simpl in I1.
    unfold Id. rewrite <- I1.
    destruct (setTags_shape d1 (IgnoreTagsConfig meta) conn) as [E | [v E]];
      rewrite T in E; simpl in E; rewrite E; [done|apply Set_id]. }
  unfold project, readAttributes. rewrite F, T. unfold String_ptr. by rewrite I, A.
Qed.

End Fields.

Lemma core_fields_copied_witness :
  rd_state (dataSourceAwsLbRead (configured ∅)
              (client (one_lb (Ok env_prod) timeout_abc))).1.1 !! "dns_name" =
    Some (VString "lb.example.com")
  ∧ rd_state (dataSourceAwsLbRead (configured ∅)
                (client (mkScript [page_ok (page_of [lb_bare]) true] [] []))).1.1
      !! "name" = Some (VPrim PNil).
Proof.
  split.
  - apply (core_fields_copied (configured ∅) (client (one_lb (Ok env_prod) timeout_abc))
             lb_a (mkScript [] [Ok env_prod]
                     [Ok (mkDescribeLoadBalancerAttributesOutput timeout_abc)])
             "dns_name" DNSName).
    + vm_compute. reflexivity.
    + unfold copiedFields. rewrite !elem_of_cons. tauto.
  - apply (core_fields_copied (configured ∅)
             (client (mkScript [page_ok (page_of [lb_bare]) true] [] []))
             lb_bare (mkScript [] [] []) "name" LoadBalancerName).
    + vm_compute. reflexivity.
    + unfold copiedFields. rewrite !elem_of_cons. tauto.
Defined.

Lemma internal_flag_witness :
  ∃ b, rd_state (dataSourceAwsLbRead (configured ∅)
                   (client (mkScript [page_ok (page_of [lb_bare]) true] [] []))).1.1
         !! "internal" = Some (VBool b)
       ∧ (b = true ↔ Scheme lb_bare = Some "internal").
Proof.
  apply (internal_flag (configured ∅)
           (client (mkScript [page_ok (page_of [lb_bare]) true] [] []))
           lb_bare (mkScript [] [] [])).
  vm_compute. reflexivity.
Defined.

Lemma exposed_tags_are_reread_witness :
  rd_state (dataSourceAwsLbRead wants_env_prod (client retagged)).1.1 !! "tags" =
    Some (VMap env_staging).
Proof.
  refine (eq_trans
    (exposed_tags_are_reread wants_env_prod (client retagged) lb_a
       (mkScript [] [Ok env_staging] (script_attributes retagged))
       (mkScript [] [] (script_attributes retagged))
       (setFields wants_env_prod lb_a).1 env_staging _ _ _) _);
    vm_compute; reflexivity.
Defined.

Lemma attributes_error_aborts_witness :
  dataSourceAwsLbRead (configured ∅) (client attributes_denied) =
    (tagged_a, mkScript [] [] [],
     Some (wrapError "error retrieving LB Attributes: " accessDenied)).
Proof.
  apply (attributes_error_aborts (configured ∅) (client attributes_denied) lb_a
           (mkScript [] [Ok env_prod] [Err accessDenied])
           (mkScript [] [] [Err accessDenied]) (mkScript [] [] [])
           resolved_a tagged_a accessDenied).
  - vm_compute. reflexivity.
  - vm_compute. reflexivity.
  - vm_compute. reflexivity.
  - vm_compute. reflexivity.
Defined.

(** ** More on the attributes *)

Lemma attributesLoop_unrecognised (a : Attribute) (rest : list Attribute)
    (d : ResourceData) (accessLogMap : gmap string PrimValue) :
  StringValue (Key a) ∉ recognisedKeys →
  attributesLoop (a :: rest) d accessLogMap = attributesLoop rest d accessLogMap.
Proof.
  unfold recognisedKeys. rewrite !not_elem_of_cons. intros N.
  cbn [attributesLoop]. key_cases; tauto.
Qed.

Lemma attributesLoop_parsed (attrs : list Attribute) :
  ∀ (d : ResourceData) (accessLogMap : gmap string PrimValue),
    (attributesLoop attrs d accessLogMap).2 = None → Forall parses attrs.
Proof.
  induction attrs as [|a attrs IH]; intros d m; [constructor|].
  cbn [attributesLoop]. key_cases;
    try (intros E; constructor; [intros K; congruence|by eapply IH]).
  destruct (Atoi (StringValue (Value a))) as [timeout|err] eqn:A; [|done].
  intros E. constructor; [intros _; by exists timeout|by eapply IH].
Qed.

Lemma attributesLoop_log_other (key : string) (attrs : list Attribute) :
  key ∉ ["enabled"; "bucket"; "prefix"] →
  ∀ (d : ResourceData) (accessLogMap : gmap string PrimValue),
    (attributesLoop attrs d accessLogMap).1.2 !! key = accessLogMap !! key.
Proof.
  rewrite !not_elem_of_cons. intros (N1 & N2 & N3 & _).
  induction attrs as [|a attrs IH]; intros d m; [done|].
  cbn [attributesLoop]. key_cases; rewrite ?IH, ?lookup_insert_ne by done; try done.
  destruct (Atoi _); [apply IH|done].
Qed.

Ltac log_lookup IH :=
  cbn [attributesLoop lastValue]; key_cases; try congruence;
  try (destruct (Atoi _); [|done]);
  intros E; rewrite (IH _ _ E); destruct (lastValue _ _);
  rewrite ?lookup_insert_eq, ?lookup_insert_ne by done; done.

Lemma attributesLoop_log_enabled (attrs : list Attribute) :
  ∀ (d : ResourceData) (accessLogMap : gmap string PrimValue),
    (attributesLoop attrs d accessLogMap).2 = None →
    (attributesLoop attrs d accessLogMap).1.2 !! "enabled" =
    match lastValue "access_logs.s3.enabled" attrs with
    | Some v => Some (PBool (String.eqb v "true"))
    | None => accessLogMap !! "enabled"
    end.
Proof. induction attrs as [|a attrs IH]; intros d m; [done|]. log_lookup IH. Qed.

Lemma attributesLoop_log_bucket (attrs : list Attribute) :
  ∀ (d : ResourceData) (accessLogMap : gmap string PrimValue),
    (attributesLoop attrs d accessLogMap).2 = None →
    (attributesLoop attrs d accessLogMap).1.2 !! "bucket" =
    match lastValue "access_logs.s3.bucket" attrs with
    | Some v => Some (PString v)
    | None => accessLogMap !! "bucket"
    end.
Proof. induction attrs as [|a attrs IH]; intros d m; [done|]. log_lookup IH. Qed.

Lemma attributesLoop_log_prefix (attrs : list Attribute) :
  ∀ (d : ResourceData) (accessLogMap : gmap string PrimValue),
    (attributesLoop attrs d accessLogMap).2 = None →
    (attributesLoop attrs d accessLogMap).1.2 !! "prefix" =
    match lastValue "access_logs.s3.prefix" attrs with
    | Some v => Some (PString v)
    | None => accessLogMap !! "prefix"
    end.
Proof. induction attrs as [|a attrs IH]; intros d m; [done|]. log_lookup IH. Qed.

Lemma setCoreFields_keeps_attribute_field (d : ResourceData) (lb : LoadBalancer)
    `{Helpers} (field : string) :
  field ∈ attributeFields →
  rd_state (setCoreFields d lb) !! field = rd_state d !! field
  ∧ field ≠ "subnets" ∧ field ≠ "subnet_mapping" ∧ field ≠ "tags"
  ∧ field ≠ "access_logs".
Proof.
  unfold attributeFields. intros M. rewrite !elem_of_cons, elem_of_nil in M.
  repeat destruct M as [M|M]; try done; subst field.
  all: split; [|done].
  all: unfold setCoreFields; repeat (rewrite Set_ignored_state_ne by done).
  all: reflexivity.
Qed.

Section MoreAttributes.
Context {Conn : Type} `{ELBV2API Conn} `{Helpers}.

(** X10. An attribute whose key the switch has no case for (a nil key
    included) changes nothing: the attributes are projected as if it
    were not in the list. *)
Theorem unrecognised_attribute_ignored (d : ResourceData)
    (pre rest : list Attribute) (attr : Attribute) :
  StringValue (Key attr) ∉ recognisedKeys →
  setAttributes d (pre ++ attr :: rest) = setAttributes d (pre ++ rest).
Proof.
  intros N. unfold setAttributes. rewrite !attributesLoop_app.
  destruct (attributesLoop pre d accessLogMap0) as [[d1 m1] [e1|]]; [done|].
  by rewrite attributesLoop_unrecognised.
Qed.

(** X11. When the read reaches the attributes and none stops the loop,
    the one record of [access_logs] holds, for each of [enabled],
    [bucket] and [prefix], what the last attribute with its key gives
    ([enabled] true exactly for ["true"]), the default when no
    attribute has the key, and nothing else. *)
Theorem access_logs_assembled (d : ResourceData) (meta : AWSClient Conn)
    (d2 : ResourceData) (conn3 : Conn) (attrs : list Attribute) :
  reachesAttributes d meta d2 conn3 attrs →
  Forall parses attrs →
  ∃ d' record,
    dataSourceAwsLbRead d meta = (d', conn3, None)
    ∧ rd_state d' !! "access_logs" = Some (VSlice [EObject record])
    ∧ record !! "enabled" =
        Some (PBool (match lastValue "access_logs.s3.enabled" attrs with
                     | Some v => String.eqb v "true"
                     | None => false
                     end))
    ∧ record !! "bucket" =
        Some (PString (default "" (lastValue "access_logs.s3.bucket" attrs)))
    ∧ record !! "prefix" =
        Some (PString (default "" (lastValue "access_logs.s3.prefix" attrs)))
    ∧ ∀ key, key ∉ ["enabled"; "bucket"; "prefix"] → record !! key = None.
Proof.
  intros R P. rewrite (read_reaches_attributes _ _ _ _ _ R).
  rewrite setAttributes_loop.
  pose proof (attributesLoop_completes attrs P d2 accessLogMap0) as C.
  pose proof (attributesLoop_log_enabled attrs d2 accessLogMap0 C) as E.
  pose proof (attributesLoop_log_bucket attrs d2 accessLogMap0 C) as B.
  pose proof (attributesLoop_log_prefix attrs d2 accessLogMap0 C) as X.
  pose proof (λ key N, attributesLoop_log_other key attrs N d2 accessLogMap0) as O.
  destruct (attributesLoop attrs d2 accessLogMap0) as [[d' m'] e'].
  simpl in C, E, B, X, O. subst e'.
  exists (mkResourceData (rd_config d')
            (<["access_logs" := VSlice [EObject m']]> (rd_state d')) (rd_id d')), m'.
  split; [reflexivity|]. split; [apply lookup_insert_eq|].
  split; [rewrite E; destruct (lastValue "access_logs.s3.enabled" attrs); reflexivity|].
  split; [rewrite B; destruct (lastValue "access_logs.s3.bucket" attrs); reflexivity|].
  split; [rewrite X; destruct (lastValue "access_logs.s3.prefix" attrs); reflexivity|].
  intros key N. rewrite (O key N).
  revert N. rewrite !not_elem_of_cons. intros (N1 & N2 & N3 & _).
  unfold accessLogMap0. by rewrite !lookup_insert_ne, lookup_empty.
Qed.

(** X12. Once the attributes are fetched, the read succeeds exactly
    when every idle-timeout value parses: no other attribute, and no
    write of a field, can fail it. *)
Theorem read_succeeds_iff_parsed (d : ResourceData) (meta : AWSClient Conn)
    (d2 : ResourceData) (conn3 : Conn) (attrs : list Attribute) :
  reachesAttributes d meta d2 conn3 attrs →
  ((dataSourceAwsLbRead d meta).2 = None ↔ Forall parses attrs).
Proof.
  intros R. rewrite (read_reaches_attributes _ _ _ _ _ R).
  rewrite setAttributes_loop. simpl. split.
  - intros E. apply (attributesLoop_parsed attrs d2 accessLogMap0).
    by destruct (attributesLoop attrs d2 accessLogMap0) as [[d' m'] [e'|]].
  - intros P. pose proof (attributesLoop_completes attrs P d2 accessLogMap0) as C.
    destruct (attributesLoop attrs d2 accessLogMap0) as [[d' m'] e'].
    simpl in C. by subst e'.
Qed.

(** X14. A field of the attributes whose key the attribute list lacks
    is left as it was before the read: unlike [access_logs], the idle
    timeout and the flags get no default. *)
Theorem absent_attribute_leaves_field (d : ResourceData) (meta : AWSClient Conn)
    (d2 : ResourceData) (conn3 : Conn) (attrs : list Attribute) (field : string) :
  reachesAttributes d meta d2 conn3 attrs →
  field ∈ attributeFields →
  Forall (λ a, fieldOf (StringValue (Key a)) ≠ Some field) attrs →
  rd_state (dataSourceAwsLbRead d meta).1.1 !! field = rd_state d !! field.
Proof.
  intros R M F. rewrite (read_reaches_attributes _ _ _ _ _ R). simpl.
  destruct R as (lb & conn & d1 & conn2 & _ & S & T & _).
  destruct (setCoreFields_keeps_attribute_field d lb field M) as (K & N1 & N2 & N3 & N4).
  rewrite setAttributes_keeps by done.
  pose proof (setTags_keeps d1 (IgnoreTagsConfig meta) conn field N3) as KT.
  rewrite T in KT. simpl in KT. rewrite KT.
  pose proof (setFields_keeps d lb field N1 N2) as KF.
  rewrite S in KF. simpl in KF. by rewrite KF.
Qed.

End MoreAttributes.
